(** * Inventory service: the two storage backends of [index.js]

    [index.js] holds two variants of one HTTP service, one after the
    other.  The first keeps the records in a JSON file ([inventory.json],
    read and rewritten as a whole by every handler), the second in a MySQL
    table.  Both expose the same routes.

    Each route handler is embedded as a function from the request to a
    computation over the persisted state, so that it can be run on a
    concrete request and compared with the contract:

    - strings are sequences of UTF-16 code units, body fields are the
      JavaScript values a form or a JSON body delivers (numbers, arrays
      and objects apart);
    - [Date.now()] and the name multer gives an uploaded file are inputs
      of the handlers;
    - requests are served one after the other, and reading or writing the
      file, the photo directory or the table does not fail;
    - the photo directory holds the files multer wrote, by name; what
      lies at any other path, and what [res.sendFile] answers to the
      headers of a request, are parameters of the handlers that read a
      photo. *)

From Stdlib Require Import ZArith NArith Strings.String Strings.Ascii Strings.Byte.
From stdpp Require Import base decidable option list strings pretty gmap vector.

Local Open Scope Z_scope.

(** ** JavaScript values reaching the handlers *)

(** A JavaScript string is a sequence of UTF-16 code units. *)
Abbreviation jsstring := (list N).

(** A string literal of the source, code unit by code unit. *)
Definition lit (s : string) : jsstring :=
  N_of_ascii <$> list_ascii_of_string s.

(** What a field of [req.body] can hold: the key is absent ([undefined]),
    or the JSON / form parser delivered [null], a boolean or a string.
    Numbers, arrays and objects are left out of the model. *)
Inductive jsval :=
  | undefined
  | null
  | JBool (b : bool)
  | JString (s : jsstring).

Global Instance jsval_eq_dec : EqDecision jsval.
Proof. solve_decision. Defined.

(** ToBoolean: what [!v], [v || w] and [if (v)] test. *)
Definition truthy (v : jsval) : bool :=
  match v with
  | undefined | null => false
  | JBool b => b
  | JString s => negb (bool_decide (s = []))
  end.

(** [v || w] *)
Definition or_else (v w : jsval) : jsval := if truthy v then v else w.
Infix "|||" := or_else (at level 50, left associativity).

(** ToString, as applied by [String(v)], by [+=] with a string on the
    right and by template literals. *)
Definition ToString (v : jsval) : jsstring :=
  match v with
  | undefined => lit "undefined"
  | null => lit "null"
  | JBool true => lit "true"
  | JBool false => lit "false"
  | JString s => s
  end.

(** [n.toString()] for an integer-valued number below 10^21 in magnitude,
    which covers [Date.now()] and the keys MySQL hands out. *)
Definition number_toString (n : Z) : jsstring := lit (pretty n).

(** WhiteSpace and LineTerminator code units of ECMAScript, the ones
    [String.prototype.trim] strips. *)
Definition isWhiteSpace (c : N) : bool :=
  let c := Z.of_N c in
  (c =? 0x09) || (c =? 0x0A) || (c =? 0x0B) || (c =? 0x0C) || (c =? 0x0D)
  || (c =? 0x20) || (c =? 0xA0) || (c =? 0x1680)
  || ((0x2000 <=? c) && (c <=? 0x200A))
  || (c =? 0x2028) || (c =? 0x2029) || (c =? 0x202F) || (c =? 0x205F)
  || (c =? 0x3000) || (c =? 0xFEFF).

Fixpoint trimStart (s : jsstring) : jsstring :=
  match s with
  | [] => []
  | c :: s' => if isWhiteSpace c then trimStart s' else s
  end.

Definition trimEnd (s : jsstring) : jsstring :=
  reverse (trimStart (reverse s)).

Definition trim (s : jsstring) : jsstring := trimEnd (trimStart s).

(** ** Uploads and responses *)

(** [raw.toString('hex')]: two lower-case hexadecimal digits a byte. *)
Definition hex_digit (n : N) : N :=
  if (n <? 10)%N then (48 + n)%N else (87 + n)%N.

Definition hex_byte (b : byte) : jsstring :=
  [hex_digit (Byte.to_N b / 16); hex_digit (Byte.to_N b mod 16)].

Definition toString_hex (raw : list byte) : jsstring := raw ≫= hex_byte.

(** [req.file] as multer's [upload.single("photo")] leaves it: the 16
    random bytes multer drew for the name of the stored blob, and the
    bytes it wrote.  The name is their hexadecimal text
    ([crypto.randomBytes(16)] and [raw.toString('hex')] in multer's disk
    storage). *)
Record upload := Upload {
  randomBytes : vec byte 16;
  content : list byte
}.

Definition filename (u : upload) : jsstring :=
  toString_hex (vec_to_list (randomBytes u)).

(** ** Paths below a photo directory *)

(** The names multer gives: not empty, lower-case hexadecimal digits. *)
Definition is_hex_digit (c : N) : bool :=
  ((48 <=? c) && (c <=? 57))%N || ((97 <=? c) && (c <=? 102))%N.

Definition multer_name (s : jsstring) : bool :=
  negb (bool_decide (s = [])) && forallb is_hex_digit s.

(** The segments of a relative path, split at the slashes. *)
Fixpoint segments_from (cur : jsstring) (s : jsstring) : list jsstring :=
  match s with
  | [] => [reverse cur]
  | c :: s' =>
    if (c =? 47)%N then reverse cur :: segments_from [] s'
    else segments_from (c :: cur) s'
  end.

Definition segments (s : jsstring) : list jsstring := segments_from [] s.

(** The normalisation [path.join] applies, followed from the photo
    directory: empty segments and [.] are dropped, [..] leaves the last
    directory entered, and [None] is a path that climbs out of the photo
    directory (whether or not it comes back into it).  The stack holds the
    segments entered, the last one first. *)
Fixpoint walk (stack : list jsstring) (segs : list jsstring)
    : option (list jsstring) :=
  match segs with
  | [] => Some stack
  | seg :: segs =>
    if bool_decide (seg = [] ∨ seg = lit ".") then walk stack segs
    else if bool_decide (seg = lit "..") then
      match stack with
      | [] => None
      | _ :: stack => walk stack segs
      end
    else walk (seg :: stack) segs
  end.

(** Where [path.join(dir, name)] leads for a photo directory [dir] and a
    stored [name] (POSIX separators): to the file [file] directly inside
    the directory, or somewhere the model of the directory does not
    reach: the directory itself, a file below a subdirectory, a path with
    a trailing slash, a path that leaves the directory, or a file whose
    name is not one multer gives. *)
Inductive photoPath :=
  | in_photos (file : jsstring)
  | not_in_photos.

Definition path_join_photos (name : jsstring) : photoPath :=
  match walk [] (segments name) with
  | Some [file] =>
    if multer_name file && negb (bool_decide (last name = Some 47%N))
    then in_photos file
    else not_in_photos
  | _ => not_in_photos
  end.

(** What [fs.existsSync(path)] and a read of the file find at a path. *)
Inductive photoFile :=
  | no_such_file
  | file_with (bytes : list byte)
  | outside_photos.

(** A request: the [:id] path parameter, the body fields the handlers
    read, and the uploaded file if any. *)
Record request := Request {
  params_id : jsstring;
  body_inventory_name : jsval;
  body_description : jsval;
  body_id : jsval;
  body_includePhoto : jsval;
  file : option upload
}.

(** What a handler sends, over the record type [I] of the backend. *)
Inductive body (I : Type) :=
  | json_item (it : I)
  | json_items (l : list I)
  | json_error (error : jsstring)
  | json_message (message : jsstring)
  | send_text (text : jsstring)
  | send_stream (bytes : list byte)
  | json_undefined
  | uncaught_TypeError.
Arguments json_item {I} it.
Arguments json_items {I} l.
Arguments json_error {I} error.
Arguments json_message {I} message.
Arguments send_text {I} text.
Arguments send_stream {I} bytes.
Arguments json_undefined {I}.
Arguments uncaught_TypeError {I}.

Record response (I : Type) := Response {
  status : Z;
  sent : body I
}.
Arguments Response {I} status sent.
Arguments status {I} r.
Arguments sent {I} r.

(** What [res.sendFile] answers to a GET without a Range or a conditional
    header, for a path outside any dot-directory: 200 and the whole
    file. *)
Definition whole_file {I} (req : request) (bytes : list byte) : response I :=
  Response 200 (send_stream bytes).

(** Handlers run in a state monad over the persisted state [S]. *)
Definition handler (S A : Type) : Type := S → A * S.

Global Instance handler_ret {S} : MRet (handler S) := λ A a s, (a, s).
Global Instance handler_bind {S} : MBind (handler S) :=
  λ A B f m s, let '(a, s') := m s in f a s'.

(** A reading of the state that leaves it as it is. *)
Definition asks {S A} (f : S → A) : handler S A := λ s, (f s, s).

(** The response of a handler run on a state, and the state it leaves. *)
Definition reply {S A} (m : handler S A) (s : S) : A := (m s).1.
Definition after {S A} (m : handler S A) (s : S) : S := (m s).2.

(** [res.json(db[idx])]: the element at [idx], or nothing when there is
    none. *)
Definition json_at {I} (db : list I) (idx : nat) : body I :=
  match db !! idx with
  | Some it => json_item it
  | None => json_undefined
  end.

(** ** The file backend *)

Module FileBackend.

(** An element of the JSON array in [inventory.json]. *)
Record item := Item {
  id : jsstring;
  inventory_name : jsval;
  description : jsval;
  photo : option jsstring
}.

Global Instance item_eq_dec : EqDecision item.
Proof. solve_decision. Defined.

Definition set_inventory_name (v : jsval) (it : item) : item :=
  Item (id it) v (description it) (photo it).
Definition set_description (v : jsval) (it : item) : item :=
  Item (id it) (inventory_name it) v (photo it).
Definition set_photo (p : jsstring) (it : item) : item :=
  Item (id it) (inventory_name it) (description it) (Some p).

(** The cache directory: the parsed content of [inventory.json] and the
    [photos] directory, a blob per file name. *)
Record disk := Disk {
  DB_FILE : list item;
  photos : gmap jsstring (list byte)
}.

Definition loadDB : handler disk (list item) := λ d, (DB_FILE d, d).

Definition saveDB (data : list item) : handler disk unit :=
  λ d, (tt, Disk data (photos d)).

(** [upload.single("photo")]: multer writes the uploaded file into
    [photos] before the handler runs. *)
Definition upload_single (f : option upload) : handler disk unit :=
  λ d, (tt, match f with
            | Some u => Disk (DB_FILE d) (<[filename u := content u]> (photos d))
            | None => d
            end).

(** [fs.existsSync(photoPath)] followed by [fs.createReadStream(photoPath)]
    for [photoPath = path.join(cache, "photos", name)]: when the path is a
    file directly inside [photos], the bytes of that file or the fact
    that there is none; any other path is outside what [photos] holds. *)
Definition readPhoto (name : jsstring) : handler disk photoFile :=
  λ d, (match path_join_photos name with
        | in_photos file =>
          match photos d !! file with
          | Some bytes => file_with bytes
          | None => no_such_file
          end
        | not_in_photos => outside_photos
        end, d).

(** [inventory_name.trim()]: only strings have the method. *)
Definition call_trim (v : jsval) : option jsstring :=
  match v with
  | JString s => Some (trim s)
  | _ => None
  end.

(** POST /register *)
Definition post_register (now : Z) (req : request) : handler disk (response item) :=
  upload_single (file req) ;;
  if negb (truthy (body_inventory_name req)) then
    mret (Response 400 (json_error (lit "inventory_name is required")))
  else
    match call_trim (body_inventory_name req) with
    | None => mret (Response 500 uncaught_TypeError)
    | Some t =>
      if bool_decide (t = []) then
        mret (Response 400 (json_error (lit "inventory_name is required")))
      else
        db ← loadDB;
        let newItem :=
          Item (number_toString now)
               (body_inventory_name req)
               (body_description req ||| JString [])
               (filename <$> file req) in
        saveDB (db ++ [newItem]) ;;
        mret (Response 201 (json_item newItem))
    end.

(** GET /inventory *)
Definition get_inventory : handler disk (response item) :=
  db ← loadDB;
  mret (Response 200 (json_items db)).

(** GET /inventory/:id *)
Definition get_inventory_id (req : request) : handler disk (response item) :=
  db ← loadDB;
  match list_find (λ x, id x = params_id req) db with
  | None => mret (Response 404 (json_error (lit "Not found")))
  | Some (_, it) => mret (Response 200 (json_item it))
  end.

(** PUT /inventory/:id *)
Definition put_inventory_id (req : request) : handler disk (response item) :=
  db ← loadDB;
  match list_find (λ x, id x = params_id req) db with
  | None => mret (Response 404 (json_error (lit "Not found")))
  | Some (idx, _) =>
    if negb (truthy (body_inventory_name req)) && negb (truthy (body_description req)) then
      mret (Response 400 (json_error (lit "No fields provided for update")))
    else
      let db1 :=
        if bool_decide (body_inventory_name req ≠ undefined)
        then alter (set_inventory_name (body_inventory_name req)) idx db
        else db in
      let db2 :=
        if bool_decide (body_description req ≠ undefined)
        then alter (set_description (body_description req)) idx db1
        else db1 in
      saveDB db2 ;;
      mret (Response 200 (json_at db2 idx))
  end.

Section around_photos.

(** What lines 264 to 268 answer when the stored name leads outside the
    files of [photos]: it depends on the file system around the photo
    directory, which belongs to the machine. *)
Context (elsewhere : disk → jsstring → response item).

(** GET /inventory/:id/photo *)
Definition get_inventory_id_photo (req : request) : handler disk (response item) :=
  db ← loadDB;
  match list_find (λ x, id x = params_id req) db with
  | None => mret (Response 404 (send_text (lit "Not found")))
  | Some (_, it) =>
    match photo it with
    | None => mret (Response 404 (send_text (lit "Not found")))
    | Some p =>
      if negb (truthy (JString p)) then
        mret (Response 404 (send_text (lit "Not found")))
      else
        blob ← readPhoto p;
        match blob with
        | no_such_file => mret (Response 404 (send_text (lit "Photo not found")))
        | file_with bytes => mret (Response 200 (send_stream bytes))
        | outside_photos => asks (λ d, elsewhere d p)
        end
    end
  end.

End around_photos.

(** PUT /inventory/:id/photo *)
Definition put_inventory_id_photo (req : request) : handler disk (response item) :=
  upload_single (file req) ;;
  db ← loadDB;
  match list_find (λ x, id x = params_id req) db with
  | None => mret (Response 404 (json_error (lit "Not found")))
  | Some (idx, _) =>
    match file req with
    | None => mret (Response 400 (json_error (lit "Photo missing")))
    | Some f =>
      saveDB (alter (set_photo (filename f)) idx db) ;;
      mret (Response 200 (json_message (lit "Photo updated")))
    end
  end.

(** The text [item.description += `\nPhoto: /inventory/${id}/photo`]
    assigns. *)
Definition annotate (id : jsval) (it : item) : item :=
  set_description
    (JString (ToString (description it)
              ++ [10%N] ++ lit "Photo: /inventory/" ++ ToString id ++ lit "/photo"))
    it.

(** POST /search.  [item] is the element of the parsed array [db], so the
    assignment changes [db[idx]]; [db] is never saved. *)
Definition post_search (req : request) : handler disk (response item) :=
  db ← loadDB;
  match list_find (λ x, JString (id x) = body_id req) db with
  | None => mret (Response 404 (send_text (lit "Not found")))
  | Some (idx, _) =>
    let db :=
      if truthy (body_includePhoto req)
      then alter (annotate (body_id req)) idx db
      else db in
    mret (Response 200 (json_at db idx))
  end.

(** DELETE /inventory/:id *)
Definition delete_inventory_id (req : request) : handler disk (response item) :=
  db ← loadDB;
  match list_find (λ x, ToString (JString (id x)) = ToString (JString (params_id req))) db with
  | None =>
    mret (Response 404
      (json_error (lit "Item with id " ++ params_id req ++ lit " not found")))
  | Some (idx, _) =>
    saveDB (delete idx db) ;;
    mret (Response 200
      (json_message (lit "Item with id " ++ params_id req ++ lit " deleted")))
  end.

End FileBackend.

(** ** The MySQL backend *)

Module MySQLBackend.

(** A row of the table, and the shape of the object POST /register sends
    back. *)
Record row := Row {
  id : Z;
  inventory_name : jsval;
  description : jsval;
  photo : option jsstring
}.

Global Instance row_eq_dec : EqDecision row.
Proof. solve_decision. Defined.

(** Modelled from the spec: the table [inventory(id, inventory_name,
    description, photo)] and the engine behind [db.query] are not in the
    repository.  The rows are kept in key order, the store assigns an
    auto-incrementing integer key, and values are stored as they are
    bound.  [PHOTOS_DIR] is the directory of uploaded blobs. *)
Record database := Database {
  inventory : list row;
  AUTO_INCREMENT : Z;
  PHOTOS_DIR : gmap jsstring (list byte)
}.

(** Modelled from the spec: [INSERT INTO inventory (inventory_name,
    description, photo) VALUES (?,?,?)]; the result carries [insertId]. *)
Definition INSERT (name desc : jsval) (ph : option jsstring) : handler database Z :=
  λ d, (AUTO_INCREMENT d,
        Database (inventory d ++ [Row (AUTO_INCREMENT d) name desc ph])
                 (AUTO_INCREMENT d + 1)
                 (PHOTOS_DIR d)).

(** Modelled from the spec: [SELECT * FROM inventory]. *)
Definition SELECT_all : handler database (list row) :=
  λ d, (inventory d, d).

(** [upload.single("photo")] with [dest: PHOTOS_DIR]: multer writes the
    uploaded file before the handler runs. *)
Definition upload_single (f : option upload) : handler database unit :=
  λ d, (tt, match f with
            | Some u =>
              Database (inventory d) (AUTO_INCREMENT d)
                       (<[filename u := content u]> (PHOTOS_DIR d))
            | None => d
            end).

(** [fs.existsSync(filePath)] and the file [res.sendFile(filePath)] is
    given, for [filePath = path.join(PHOTOS_DIR, name)]: when the path is
    a file directly inside [PHOTOS_DIR], the bytes of that file or the
    fact that there is none; any other path is outside what [PHOTOS_DIR]
    holds. *)
Definition readPhoto (name : jsstring) : handler database photoFile :=
  λ d, (match path_join_photos name with
        | in_photos file =>
          match PHOTOS_DIR d !! file with
          | Some bytes => file_with bytes
          | None => no_such_file
          end
        | not_in_photos => outside_photos
        end, d).

(** POST /register.  The [catch] branch (500 on a failing query) is not
    reached: the modelled store does not fail. *)
Definition post_register (req : request) : handler database (response row) :=
  upload_single (file req) ;;
  if negb (truthy (body_inventory_name req)) then
    mret (Response 400 (json_error (lit "inventory_name is required")))
  else
    insertId ← INSERT (body_inventory_name req)
                      (body_description req ||| JString [])
                      (filename <$> file req);
    let inserted :=
      Row insertId
          (body_inventory_name req)
          (body_description req)
          (filename <$> file req) in
    mret (Response 201 (json_item inserted)).

(** GET /inventory *)
Definition get_inventory : handler database (response row) :=
  rows ← SELECT_all;
  mret (Response 200 (json_items rows)).

Section by_id.

(** How MySQL compares the integer key of a row with the string bound from
    the path in [WHERE id = ?]: the comparison belongs to the engine, so
    the handlers that look a row up take it as a parameter. *)
Context (id_matches : Z → jsstring → bool).

(** What lines 566 to 569 answer when the stored name leads outside the
    files of [PHOTOS_DIR], and what [res.sendFile] answers for a file of
    the directory: the first depends on the file system around the
    directory, the second on the headers of the request ([whole_file] for
    a plain GET, 206, 304, 412 or 416 for Range and conditional
    requests). *)
Context (elsewhere : database → jsstring → response row).
Context (sendFile : request → list byte → response row).

Definition WHERE_id (p : jsstring) (r : row) : Prop :=
  id_matches (id r) p = true.

Global Instance WHERE_id_dec p r : Decision (WHERE_id p r).
Proof. unfold WHERE_id. apply _. Defined.

(** Modelled from the spec: [SELECT * FROM inventory WHERE id = ?]. *)
Definition SELECT_WHERE_id (p : jsstring) : handler database (list row) :=
  λ d, (filter (WHERE_id p) (inventory d), d).

(** Modelled from the spec: [UPDATE inventory SET inventory_name = ?,
    description = ? WHERE id = ?]. *)
Definition UPDATE_fields (name desc : jsval) (p : jsstring) : handler database unit :=
  λ d, (tt,
        Database
          ((λ r, if decide (WHERE_id p r) then Row (id r) name desc (photo r) else r)
             <$> inventory d)
          (AUTO_INCREMENT d) (PHOTOS_DIR d)).

(** Modelled from the spec: [UPDATE inventory SET photo = ? WHERE id = ?]. *)
Definition UPDATE_photo (ph : jsstring) (p : jsstring) : handler database unit :=
  λ d, (tt,
        Database
          ((λ r, if decide (WHERE_id p r)
                 then Row (id r) (inventory_name r) (description r) (Some ph)
                 else r)
             <$> inventory d)
          (AUTO_INCREMENT d) (PHOTOS_DIR d)).

(** Modelled from the spec: [DELETE FROM inventory WHERE id = ?]. *)
Definition DELETE (p : jsstring) : handler database unit :=
  λ d, (tt,
        Database (filter (λ r, ¬ WHERE_id p r) (inventory d))
                 (AUTO_INCREMENT d) (PHOTOS_DIR d)).

(** GET /inventory/:id *)
Definition get_inventory_id (req : request) : handler database (response row) :=
  rows ← SELECT_WHERE_id (params_id req);
  match rows with
  | [] => mret (Response 404 (json_error (lit "Not found")))
  | r :: _ => mret (Response 200 (json_item r))
  end.

(** PUT /inventory/:id *)
Definition put_inventory_id (req : request) : handler database (response row) :=
  rows ← SELECT_WHERE_id (params_id req);
  match rows with
  | [] => mret (Response 404 (json_error (lit "Not found")))
  | r :: _ =>
    UPDATE_fields (body_inventory_name req ||| inventory_name r)
                  (body_description req ||| description r)
                  (params_id req) ;;
    mret (Response 200 (json_message (lit "Updated")))
  end.

(** GET /inventory/:id/photo *)
Definition get_inventory_id_photo (req : request) : handler database (response row) :=
  rows ← SELECT_WHERE_id (params_id req);
  match rows with
  | [] => mret (Response 404 (send_text (lit "Photo not found")))
  | r :: _ =>
    match photo r with
    | None => mret (Response 404 (send_text (lit "Photo not found")))
    | Some p =>
      if negb (truthy (JString p)) then
        mret (Response 404 (send_text (lit "Photo not found")))
      else
        blob ← readPhoto p;
        match blob with
        | no_such_file => mret (Response 404 (send_text (lit "File missing")))
        | file_with bytes => mret (sendFile req bytes)
        | outside_photos => asks (λ d, elsewhere d p)
        end
    end
  end.

(** PUT /inventory/:id/photo *)
Definition put_inventory_id_photo (req : request) : handler database (response row) :=
  upload_single (file req) ;;
  match file req with
  | None => mret (Response 400 (json_error (lit "Missing file")))
  | Some f =>
    rows ← SELECT_WHERE_id (params_id req);
    match rows with
    | [] => mret (Response 404 (json_error (lit "Not found")))
    | _ :: _ =>
      UPDATE_photo (filename f) (params_id req) ;;
      mret (Response 200 (json_message (lit "Photo updated")))
    end
  end.

(** DELETE /inventory/:id *)
Definition delete_inventory_id (req : request) : handler database (response row) :=
  rows ← SELECT_WHERE_id (params_id req);
  match rows with
  | [] => mret (Response 404 (json_error (lit "Not found")))
  | _ :: _ =>
    DELETE (params_id req) ;;
    mret (Response 200 (json_message (lit "Deleted")))
  end.

End by_id.

(** Modelled from the spec: ids are compared as opaque tokens, so a key
    matches the path parameter when the parameter is its decimal text. *)
Definition decimal_token (k : Z) (p : jsstring) : bool :=
  bool_decide (number_toString k = p).

End MySQLBackend.
(** ** Runs and readings of the handlers used in the statements *)

(** A form or JSON body with the two item fields, and no path parameter. *)
Definition fields (name desc : jsval) : request :=
  Request [] name desc undefined undefined None.

(** A request on [/inventory/:id] with the two item fields in its body. *)
Definition on_id (p : jsstring) (name desc : jsval) : request :=
  Request p name desc undefined undefined None.

(** A POST /search form. *)
Definition search_form (id includePhoto : jsval) : request :=
  Request [] undefined undefined id includePhoto None.

(** The item a 201 response carries. *)
Definition created {I} (r : response I) : option I :=
  if bool_decide (status r = 201) then
    match sent r with
    | json_item it => Some it
    | _ => None
    end
  else None.

Module FileRuns.
Import FileBackend.

(** The names POST /register of the file backend lets through: strings
    that are not blank. *)
Definition valid_name (v : jsval) : bool :=
  match v with
  | JString s => negb (bool_decide (trim s = []))
  | _ => false
  end.

(** The record POST /register builds. *)
Definition newItem (now : Z) (req : request) : item :=
  Item (number_toString now)
       (body_inventory_name req)
       (body_description req ||| JString [])
       (filename <$> file req).

(** A sequence of POST /register calls, each at its [Date.now()]. *)
Fixpoint post_registers (rs : list (Z * request))
    : handler disk (list (response item)) :=
  match rs with
  | [] => mret []
  | (now, req) :: rs =>
    r ← post_register now req;
    rest ← post_registers rs;
    mret (r :: rest)
  end.

(** [db.find(x => x.id === p)] *)
Definition find (p : jsstring) (db : list item) : option item :=
  snd <$> list_find (λ x, id x = p) db.

(** What PUT /inventory/:id makes of an item. *)
Definition updated (req : request) (it : item) : item :=
  Item (id it)
       (if bool_decide (body_inventory_name req ≠ undefined)
        then body_inventory_name req else inventory_name it)
       (if bool_decide (body_description req ≠ undefined)
        then body_description req else description it)
       (photo it).

(** The stored name is a non-empty string (or another truthy value). *)
Definition named (it : item) : Prop := truthy (inventory_name it) = true.

(** The three ways GET /inventory/:id/photo has nothing to send: no item
    has the id, the item found has no photo reference ([null], or the
    empty name no upload produces), or the blob it names is not in
    [photos]. *)
Inductive no_photo_for (p : jsstring) (d : disk) : Prop :=
  | no_item :
      Forall (λ x, id x ≠ p) (DB_FILE d) → no_photo_for p d
  | no_reference it :
      find p (DB_FILE d) = Some it →
      photo it = None ∨ photo it = Some [] → no_photo_for p d
  | blob_missing it name :
      find p (DB_FILE d) = Some it →
      photo it = Some name → photos d !! name = None → no_photo_for p d.

End FileRuns.

Module MySQLRuns.
Import MySQLBackend.

(** A sequence of POST /register calls. *)
Fixpoint post_registers (rs : list request)
    : handler database (list (response row)) :=
  match rs with
  | [] => mret []
  | req :: rs =>
    r ← post_register req;
    rest ← post_registers rs;
    mret (r :: rest)
  end.

(** The row stored for the object POST /register sends back: the
    statement binds [description || ""]. *)
Definition stored (inserted : row) : row :=
  Row (id inserted) (inventory_name inserted)
      (description inserted ||| JString []) (photo inserted).

(** Every key in the table is below the next key to hand out. *)
Definition keys_below (d : database) : Prop :=
  Forall (λ r, id r < AUTO_INCREMENT d) (inventory d).

(** The stored name is a non-empty string (or another truthy value). *)
Definition named (r : row) : Prop := truthy (inventory_name r) = true.

Section by_id.
Context (id_matches : Z → jsstring → bool).

(** [rows[0]] of [SELECT ... WHERE id = ?] *)
Definition first_row (p : jsstring) (d : database) : option row :=
  head (filter (WHERE_id id_matches p) (inventory d)).

(** The three ways GET /inventory/:id/photo has nothing to send. *)
Inductive no_photo_for (p : jsstring) (d : database) : Prop :=
  | no_item :
      Forall (λ r, ¬ WHERE_id id_matches p r) (inventory d) → no_photo_for p d
  | no_reference r :
      first_row p d = Some r →
      photo r = None ∨ photo r = Some [] → no_photo_for p d
  | blob_missing r name :
      first_row p d = Some r →
      photo r = Some name → PHOTOS_DIR d !! name = None → no_photo_for p d.

End by_id.

End MySQLRuns.

(** ** The scenarios the statements run *)

(** A fresh cache directory, and a fresh table. *)
Definition empty_disk : FileBackend.disk := FileBackend.Disk [] ∅.
Definition empty_table : MySQLBackend.database := MySQLBackend.Database [] 1 ∅.

(** A value of [Date.now()]. *)
Definition t0 : Z := 1700000000000.

(** The file backend after two POST /register calls, for "Drill" and for
    "Saw", both served in the millisecond [t0]. *)
Definition disk_with_twins : FileBackend.disk :=
  after (FileBackend.post_register t0 (fields (JString (lit "Saw")) undefined))
    (after (FileBackend.post_register t0 (fields (JString (lit "Drill")) undefined))
       empty_disk).

(** The file backend after one POST /register for "Drill" with the
    description "cordless". *)
Definition disk_with_drill : FileBackend.disk :=
  after (FileBackend.post_register t0
           (fields (JString (lit "Drill")) (JString (lit "cordless"))))
    empty_disk.

(** The item that call stores. *)
Definition stored_drill : FileBackend.item :=
  FileBackend.Item (lit "1700000000000") (JString (lit "Drill"))
                   (JString (lit "cordless")) None.

(** The table after one POST /register for "Drill" with the description
    "cordless". *)
Definition table_with_drill : MySQLBackend.database :=
  after (MySQLBackend.post_register
           (fields (JString (lit "Drill")) (JString (lit "cordless"))))
    empty_table.


(** ** Further readings used in the laws of the handlers *)

Module MySQLKeys.
Import MySQLBackend MySQLRuns.

(** No key repeats, and every key is below the next one to hand out. *)
Definition keys_unique (d : database) : Prop :=
  NoDup (id <$> inventory d) ∧ keys_below d.

(** A comparison under which the decimal text of a key selects that key
    and no other: what any engine does with the text of a whole number. *)
Definition selects_own_key (id_matches : Z → jsstring → bool) : Prop :=
  ∀ k k', id_matches k (number_toString k') = true ↔ k = k'.

End MySQLKeys.

(** ** Stored ids and the clock *)

Module FileClock.

(** Every stored id is the decimal text of a millisecond before [now]:
    what holds of an array whose items were all registered by calls served
    in earlier milliseconds. *)
Definition ids_before (now : Z) (d : FileBackend.disk) : Prop :=
  Forall (λ it, ∃ t, t < now ∧ FileBackend.id it = number_toString t)
         (FileBackend.DB_FILE d).

(** The calls of a run are served in different milliseconds, one after
    the other, none before [now]. *)
Fixpoint increasing_from (now : Z) (rs : list (Z * request)) : Prop :=
  match rs with
  | [] => True
  | (t, _) :: rs => now ≤ t ∧ increasing_from (t + 1) rs
  end.

End FileClock.

(** ** Stored photo names *)

Module PhotoNames.

(** Every photo name stored in [inventory.json] is a name multer gives:
    what holds of every array the handlers write, since the only names
    they store are those of uploads. *)
Definition file_multer_named (d : FileBackend.disk) : Prop :=
  Forall (λ it, ∀ p, FileBackend.photo it = Some p → multer_name p = true)
         (FileBackend.DB_FILE d).

(** The same for the rows of the table. *)
Definition mysql_multer_named (d : MySQLBackend.database) : Prop :=
  Forall (λ r, ∀ p, MySQLBackend.photo r = Some p → multer_name p = true)
         (MySQLBackend.inventory d).

End PhotoNames.

(** ** Further scenarios *)

(** A machine on which the paths outside the photo directory hold
    nothing the handler could send. *)
Definition nothing_elsewhere {S I} (d : S) (name : jsstring) : response I :=
  Response 404 (send_text (lit "Photo not found")).

(** An uploaded file as multer stores it, under a generated name. *)
Definition drill_jpeg : upload :=
  Upload [# Byte.x3f; Byte.x2a; Byte.x9c; Byte.x41; Byte.x7e; Byte.x05;
            Byte.xd1; Byte.xb8; Byte.x66; Byte.x0f; Byte.xc2; Byte.x93;
            Byte.xa7; Byte.x58; Byte.xe4; Byte.x1b]
         [Byte.xff; Byte.xd8; Byte.xff; Byte.xe0].

(** The name multer gives it. *)
Definition drill_jpeg_name : jsstring := lit "3f2a9c417e05d1b8660fc293a758e41b".

(** A request on the stored "Drill" of either backend that uploads it. *)
Definition upload_for (p : jsstring) : request :=
  Request p undefined undefined undefined undefined (Some drill_jpeg).

(** The row of [table_with_drill]. *)
Definition stored_drill_row : MySQLBackend.row :=
  MySQLBackend.Row 1 (JString (lit "Drill")) (JString (lit "cordless")) None.

(** The stored "Drill" of the file backend with [drill_jpeg] uploaded for
    it, and row 1 of the table with the same upload. *)
Definition disk_with_photo : FileBackend.disk :=
  after (FileBackend.put_inventory_id_photo (upload_for (lit "1700000000000")))
    disk_with_drill.

Definition table_with_photo : MySQLBackend.database :=
  after (MySQLBackend.put_inventory_id_photo MySQLBackend.decimal_token
           (upload_for (lit "1")))
    table_with_drill.

(** The file backend after "Drill" at [t0] and "Saw" one millisecond
    later. *)
Definition disk_with_drill_and_saw : FileBackend.disk :=
  after (FileBackend.post_register (t0 + 1)
           (fields (JString (lit "Saw")) undefined))
    disk_with_drill.

(** A request on the stored "Drill" that renames it "Hammer" and uploads
    [drill_jpeg]. *)
Definition rename_and_upload : request :=
  Request (lit "1700000000000") (JString (lit "Hammer")) undefined undefined
          undefined (Some drill_jpeg).

(** ** Facts about the JavaScript primitives *)

Lemma trimStart_whitespace (s : jsstring) :
  forallb isWhiteSpace s = true → trimStart s = [].
Proof.
  induction s as [|c s IH]; simpl; [done|].
  intros [Hc Hs]%andb_prop. rewrite Hc. auto.
Qed.

Lemma trimStart_cases (s : jsstring) :
  trimStart s = [] ∨ ∃ c t, trimStart s = c :: t ∧ isWhiteSpace c = false.
Proof.
  induction s as [|c s IH]; simpl; [by left|].
  destruct (isWhiteSpace c) eqn:Hc; [done|]. right. eauto.
Qed.

Lemma trimStart_nil (s : jsstring) :
  trimStart s = [] → forallb isWhiteSpace s = true.
Proof.
  induction s as [|c s IH]; simpl; [done|].
  destruct (isWhiteSpace c); [auto|done].
Qed.

Lemma forallb_reverse {A} (f : A → bool) (l : list A) :
  forallb f (reverse l) = forallb f l.
Proof.
  induction l as [|x l IH]; [done|].
  rewrite reverse_cons, forallb_app, IH. simpl.
  rewrite andb_true_r. apply andb_comm.
Qed.

Lemma trim_nil_iff (s : jsstring) :
  trim s = [] ↔ forallb isWhiteSpace s = true.
Proof.
  unfold trim, trimEnd. split.
  - intros H. apply (f_equal reverse) in H. rewrite reverse_involutive in H.
    simpl in H. apply trimStart_nil in H. rewrite forallb_reverse in H.
    destruct (trimStart_cases s) as [E|(c & t & E & Hc)].
    + by apply trimStart_nil.
    + rewrite E in H. simpl in H. by rewrite Hc in H.
  - intros H. by rewrite (trimStart_whitespace s H).
Qed.

Lemma lit_inj (s1 s2 : string) : lit s1 = lit s2 → s1 = s2.
Proof.
  unfold lit. intros H.
  assert (Inj (=) (=) N_of_ascii) as Hinj.
  { intros a b E. by rewrite <- (ascii_N_embedding a), E, ascii_N_embedding. }
  apply (inj (fmap N_of_ascii)) in H.
  by rewrite <- (string_of_list_ascii_of_string s1), H, string_of_list_ascii_of_string.
Qed.

Lemma number_toString_inj (m n : Z) :
  number_toString m = number_toString n → m = n.
Proof. intros H%lit_inj. by apply (inj pretty). Qed.

(** ** Facts about multer's names and [path.join] *)

Lemma forallb_Forall {A} (f : A → bool) (l : list A) :
  forallb f l = true ↔ Forall (λ x, f x = true) l.
Proof.
  induction l as [|x l IH]; simpl; [done|].
  rewrite andb_true_iff, Forall_cons. tauto.
Qed.

Lemma hex_byte_is_hex (b : byte) : forallb is_hex_digit (hex_byte b) = true.
Proof. by destruct b. Qed.

Lemma toString_hex_is_hex (raw : list byte) :
  forallb is_hex_digit (toString_hex raw) = true.
Proof.
  unfold toString_hex. induction raw as [|b raw IH]; [done|].
  by rewrite bind_cons, forallb_app, hex_byte_is_hex, IH.
Qed.

Lemma length_toString_hex (raw : list byte) :
  length (toString_hex raw) = (2 * length raw)%nat.
Proof.
  unfold toString_hex. induction raw as [|b raw IH]; [done|].
  rewrite bind_cons, length_app, IH. simpl. lia.
Qed.

(** The name multer gives an upload is one of its names: 32 hexadecimal
    digits. *)
Lemma filename_multer_name (u : upload) : multer_name (filename u) = true.
Proof.
  unfold multer_name, filename. rewrite toString_hex_is_hex, andb_true_r.
  apply negb_true_iff, bool_decide_eq_false. intros E.
  apply (f_equal length) in E.
  rewrite length_toString_hex, length_vec_to_list in E. done.
Qed.

Lemma filename_not_empty (u : upload) : filename u ≠ [].
Proof.
  pose proof (filename_multer_name u) as H. unfold multer_name in H.
  apply andb_prop in H as [H _]. by apply negb_true_iff, bool_decide_eq_false in H.
Qed.

(** A string without a slash is one segment. *)
Lemma segments_from_no_slash (cur s : jsstring) :
  forallb (λ c, negb (c =? 47)%N) s = true →
  segments_from cur s = [reverse cur ++ s].
Proof.
  revert cur. induction s as [|c s IH]; intros cur Hs; simpl in *.
  - by rewrite app_nil_r.
  - apply andb_prop in Hs as [Hc Hs]. apply negb_true_iff in Hc. rewrite Hc.
    rewrite (IH _ Hs), reverse_cons, <- app_assoc. done.
Qed.

Lemma hex_digit_not_special (c : N) :
  is_hex_digit c = true → c ≠ 47%N ∧ c ≠ 46%N.
Proof. unfold is_hex_digit. intros H. split; intros ->; done. Qed.

(** For a name multer gives, [path.join(dir, name)] is the file of that
    name directly inside the directory. *)
Lemma path_join_photos_multer_name (p : jsstring) :
  multer_name p = true → path_join_photos p = in_photos p.
Proof.
  intros Hp. pose proof Hp as Hm. unfold multer_name in Hp.
  apply andb_prop in Hp as [Hne Hhex].
  apply negb_true_iff, bool_decide_eq_false in Hne.
  assert (Forall (λ c, is_hex_digit c = true) p) as Hall
    by (by apply forallb_Forall).
  unfold path_join_photos, segments.
  rewrite segments_from_no_slash; simpl.
  - rewrite bool_decide_eq_false_2.
    + rewrite bool_decide_eq_false_2.
      * rewrite Hm. simpl. rewrite bool_decide_eq_false_2; [done|].
        intros Hl%last_Some_elem_of.
        eapply Forall_forall in Hall; [|exact Hl].
        by apply hex_digit_not_special in Hall as [? _].
      * intros ->. by vm_compute in Hhex.
    + intros [->| ->]; [done|]. by vm_compute in Hhex.
  - apply forallb_Forall. eapply Forall_impl; [exact Hall|].
    intros c Hc. apply hex_digit_not_special in Hc as [Hc _].
    by apply negb_true_iff, N.eqb_neq.
Qed.

Lemma path_join_photos_filename (u : upload) :
  path_join_photos (filename u) = in_photos (filename u).
Proof. apply path_join_photos_multer_name, filename_multer_name. Qed.

(** ** The file backend: what each handler does to [inventory.json] *)

Module FileFacts.
Import FileBackend FileRuns.

(** Unfolds the monadic plumbing of a handler run. *)
Ltac run :=
  unfold reply, after, mbind, handler_bind, mret, handler_ret, asks,
    loadDB, saveDB, readPhoto, upload_single in *; simpl in *.

Lemma upload_keeps_DB_FILE f d :
  DB_FILE (after (upload_single f) d) = DB_FILE d.
Proof. by destruct f. Qed.

Lemma valid_name_truthy v : valid_name v = true → truthy v = true.
Proof.
  destruct v as [| | |s]; simpl; try done.
  destruct s as [|c s]; [by vm_compute | by intros _].
Qed.

(** A valid name: the record is appended and sent back with 201. *)
Lemma post_register_valid now req d :
  valid_name (body_inventory_name req) = true →
  post_register now req d =
    (Response 201 (json_item (newItem now req)),
     Disk (DB_FILE d ++ [newItem now req])
          (photos (after (upload_single (file req)) d))).
Proof.
  intros Hv. pose proof (valid_name_truthy _ Hv) as Ht.
  unfold post_register, newItem. run. rewrite Ht. simpl.
  destruct (body_inventory_name req) as [| | |s]; try done. simpl in *.
  destruct (bool_decide (trim s = [])); [done|].
  by destruct (file req).
Qed.

(** Any other name: 400 or 500, and the array is left as it was. *)
Lemma post_register_invalid now req d :
  valid_name (body_inventory_name req) = false →
  (status (reply (post_register now req) d) = 400
   ∨ status (reply (post_register now req) d) = 500)
  ∧ DB_FILE (after (post_register now req) d) = DB_FILE d.
Proof.
  intros Hv. unfold post_register. run.
  destruct (body_inventory_name req) as [| |[]|s]; simpl in *;
    try (destruct (file req); by auto).
  destruct (bool_decide (s = [])); simpl; [destruct (file req); by auto|].
  apply negb_false_iff in Hv. rewrite Hv. destruct (file req); by auto.
Qed.

(** The file backend turns blank names away: absent, empty or made of
    white space only. *)
Lemma post_register_blank_rejected now req d s :
  body_inventory_name req = undefined
  ∨ (body_inventory_name req = JString s ∧ forallb isWhiteSpace s = true) →
  status (reply (post_register now req) d) = 400
  ∧ DB_FILE (after (post_register now req) d) = DB_FILE d.
Proof.
  unfold post_register. run. intros [->|[-> Hs]]; simpl.
  - by destruct (file req).
  - apply trim_nil_iff in Hs. rewrite Hs.
    destruct (bool_decide (s = [])); simpl; by destruct (file req).
Qed.

(** The item sent back is fully populated. *)
Lemma post_register_created now req d it :
  created (reply (post_register now req) d) = Some it →
  id it = number_toString now
  ∧ inventory_name it = body_inventory_name req
  ∧ description it = (body_description req ||| JString [])
  ∧ photo it = filename <$> file req
  ∧ DB_FILE (after (post_register now req) d) = DB_FILE d ++ [it].
Proof.
  destruct (valid_name (body_inventory_name req)) eqn:Hv.
  - unfold reply, after. rewrite (post_register_valid _ _ _ Hv). simpl.
    unfold created. simpl. by intros [= <-].
  - destruct (post_register_invalid now req d Hv) as [Hs _].
    unfold created. case_bool_decide; [|done]. destruct Hs; congruence.
Qed.

(** What a successful POST /register sends back: the id it assigned, the
    name as given, the description or the empty string for a missing
    (falsy) one, the name of the uploaded blob or [null]; the same item is
    the last of the stored array. *)
Lemma post_register_sends_populated_item now req d it :
  created (reply (post_register now req) d) = Some it →
  id it = number_toString now
  ∧ inventory_name it = body_inventory_name req
  ∧ (truthy (body_description req) = false → description it = JString [])
  ∧ (truthy (body_description req) = true → description it = body_description req)
  ∧ (file req = None → photo it = None)
  ∧ (∀ f, file req = Some f → photo it = Some (filename f))
  ∧ last (DB_FILE (after (post_register now req) d)) = Some it.
Proof.
  intros (Hid & Hn & Hd & Hp & Hdb)%post_register_created.
  rewrite Hid, Hn, Hd, Hp, Hdb. unfold or_else. split_and!; try done.
  - by intros ->.
  - by intros ->.
  - by intros ->.
  - by intros f ->.
  - by rewrite last_snoc.
Qed.

(** Each successful call of a sequence appends its item. *)
Lemma post_registers_appends rs d :
  DB_FILE (after (post_registers rs) d)
  = DB_FILE d ++ omap created (reply (post_registers rs) d).
Proof.
  revert d. induction rs as [|[now req] rs IH]; intros d.
  - simpl. by rewrite app_nil_r.
  - unfold reply, after in *. simpl. unfold mbind, handler_bind at 1 3.
    destruct (post_register now req d) as [r d1] eqn:E.
    unfold mbind, handler_bind.
    destruct (post_registers rs d1) as [rest d2] eqn:E2. simpl.
    specialize (IH d1). rewrite E2 in IH. simpl in IH. rewrite IH.
    destruct (created r) as [it|] eqn:Hc.
    + pose proof (post_register_created now req d it) as H.
      unfold reply, after in H. rewrite E in H. simpl in H.
      destruct (H Hc) as (_ & _ & _ & _ & ->). by rewrite <- app_assoc.
    + destruct (valid_name (body_inventory_name req)) eqn:Hv.
      * rewrite (post_register_valid _ _ _ Hv) in E. injection E as <- <-.
        done.
      * destruct (post_register_invalid now req d Hv) as [_ Hd].
        unfold after in Hd. rewrite E in Hd. simpl in Hd. by rewrite Hd.
Qed.

(** *** GET /inventory and GET /inventory/:id *)

Lemma get_inventory_run d :
  get_inventory d = (Response 200 (json_items (DB_FILE d)), d).
Proof. done. Qed.

Lemma get_inventory_id_run req d :
  get_inventory_id req d =
    (match find (params_id req) (DB_FILE d) with
     | Some it => Response 200 (json_item it)
     | None => Response 404 (json_error (lit "Not found"))
     end, d).
Proof.
  unfold get_inventory_id, find. run.
  by destruct (list_find _ _) as [[idx it]|].
Qed.

(** *** PUT /inventory/:id *)

(** Neither field truthy: 400, nothing written. *)
Lemma put_no_fields_rejected req d idx it :
  list_find (λ x, id x = params_id req) (DB_FILE d) = Some (idx, it) →
  truthy (body_inventory_name req) = false →
  truthy (body_description req) = false →
  put_inventory_id req d =
    (Response 400 (json_error (lit "No fields provided for update")), d).
Proof. intros Hf Hn Hd. unfold put_inventory_id. run. by rewrite Hf, Hn, Hd. Qed.

(** Otherwise the fields that are not [undefined] are overwritten in the
    found element, and only there. *)
Lemma put_overwrites_supplied req d idx it :
  list_find (λ x, id x = params_id req) (DB_FILE d) = Some (idx, it) →
  truthy (body_inventory_name req) || truthy (body_description req) = true →
  put_inventory_id req d =
    (Response 200 (json_item (updated req it)),
     Disk (alter (updated req) idx (DB_FILE d)) (photos d)).
Proof.
  intros Hf Ht. unfold put_inventory_id. run. rewrite Hf.
  apply orb_true_iff in Ht.
  replace (negb (truthy (body_inventory_name req))
           && negb (truthy (body_description req))) with false
    by (destruct Ht as [-> | ->]; simpl; by rewrite ?andb_false_r).
  apply list_find_Some in Hf as (Hi & _ & _).
  assert (∀ db' : list item, db' = alter (updated req) idx (DB_FILE d) →
    (Response 200 (json_at db' idx), Disk db' (photos d))
    = (Response 200 (json_item (updated req it)),
       Disk (alter (updated req) idx (DB_FILE d)) (photos d))) as Hgo.
  { intros db' ->. unfold json_at. by rewrite list_lookup_alter_eq, Hi. }
  apply Hgo. unfold updated.
  repeat case_bool_decide; rewrite ?list_alter_alter_eq;
    try (apply list_alter_ext; [intros [] ?; done | done]).
  symmetry. replace (DB_FILE d) with (alter (λ x, x) idx (DB_FILE d)) at 2
    by (by apply list_alter_id).
  apply list_alter_ext; [intros [] ?; done | done].
Qed.

Lemma put_unknown_id req d :
  list_find (λ x, id x = params_id req) (DB_FILE d) = None →
  put_inventory_id req d = (Response 404 (json_error (lit "Not found")), d).
Proof. intros Hf. unfold put_inventory_id. run. by rewrite Hf. Qed.

(** A request that names only [description] leaves the name and the
    photo of the element alone. *)
Lemma updated_description_only req it :
  body_inventory_name req = undefined →
  inventory_name (updated req it) = inventory_name it
  ∧ photo (updated req it) = photo it
  ∧ id (updated req it) = id it.
Proof. intros E. unfold updated. rewrite E. done. Qed.

(** *** DELETE /inventory/:id *)

Lemma delete_inventory_id_run req d :
  delete_inventory_id req d =
    match list_find (λ x, id x = params_id req) (DB_FILE d) with
    | Some (idx, _) =>
      (Response 200
         (json_message (lit "Item with id " ++ params_id req ++ lit " deleted")),
       Disk (delete idx (DB_FILE d)) (photos d))
    | None =>
      (Response 404
         (json_error (lit "Item with id " ++ params_id req ++ lit " not found")),
       d)
    end.
Proof.
  unfold delete_inventory_id. run.
  change (λ x : item, ToString (JString (id x)) = ToString (JString (params_id req)))
    with (λ x : item, id x = params_id req).
  by destruct (list_find _ _) as [[idx it]|].
Qed.

(** Removing the first element with a given key leaves none with that
    key, provided keys do not repeat. *)
Lemma list_find_delete_unique {A K} `{EqDecision K}
    (key : A → K) (k : K) (l : list A) (i : nat) (x : A) :
  NoDup (key <$> l) →
  list_find (λ y, key y = k) l = Some (i, x) →
  list_find (λ y, key y = k) (delete i l) = None.
Proof.
  intros Hnd (Hi & Hk & _)%list_find_Some.
  apply list_find_None, Forall_lookup. intros j y Hj Hy.
  rewrite list_lookup_delete in Hj.
  assert (i = if decide (j < i)%nat then j else S j) as Heq.
  { apply (NoDup_lookup (key <$> l) _ _ k Hnd).
    - by rewrite list_lookup_fmap, Hi; simpl; rewrite Hk.
    - by rewrite list_lookup_fmap, Hj; simpl; rewrite Hy. }
  case_decide; lia.
Qed.

(** With ids that do not repeat, a deleted id is gone: GET and a second
    DELETE both answer 404. *)
Lemma delete_then_not_found req d idx it :
  NoDup (id <$> DB_FILE d) →
  list_find (λ x, id x = params_id req) (DB_FILE d) = Some (idx, it) →
  status (reply (delete_inventory_id req) d) = 200
  ∧ status (reply (get_inventory_id req) (after (delete_inventory_id req) d)) = 404
  ∧ status (reply (delete_inventory_id req) (after (delete_inventory_id req) d)) = 404.
Proof.
  intros Hnd Hf. pose proof (list_find_delete_unique id _ _ _ _ Hnd Hf) as Hgone.
  unfold reply, after. rewrite !delete_inventory_id_run, Hf. simpl.
  rewrite get_inventory_id_run. unfold find. simpl.
  by rewrite Hgone.
Qed.

(** *** POST /search *)

Lemma post_search_keeps_disk req d : after (post_search req) d = d.
Proof.
  unfold post_search. run. by destruct (list_find _ _) as [[idx it]|].
Qed.

Lemma post_search_found req d idx it :
  list_find (λ x, JString (id x) = body_id req) (DB_FILE d) = Some (idx, it) →
  reply (post_search req) d =
    Response 200
      (json_item (if truthy (body_includePhoto req)
                  then annotate (body_id req) it else it)).
Proof.
  intros Hf. unfold post_search. run. rewrite Hf. simpl.
  apply list_find_Some in Hf as (Hi & _ & _). unfold json_at.
  destruct (truthy (body_includePhoto req)).
  - by rewrite list_lookup_alter_eq, Hi.
  - by rewrite Hi.
Qed.

Lemma post_search_not_found req d :
  list_find (λ x, JString (id x) = body_id req) (DB_FILE d) = None →
  reply (post_search req) d = Response 404 (send_text (lit "Not found")).
Proof. intros Hf. unfold post_search. run. by rewrite Hf. Qed.

(** *** GET /inventory/:id/photo *)

Section around_photos.
Context (elsewhere : disk → jsstring → response item).

Local Abbreviation get_inventory_id_photo := (get_inventory_id_photo elsewhere).

Lemma get_inventory_id_photo_run req d :
  get_inventory_id_photo req d =
    (match find (params_id req) (DB_FILE d) with
     | None => Response 404 (send_text (lit "Not found"))
     | Some it =>
       match photo it with
       | None => Response 404 (send_text (lit "Not found"))
       | Some p =>
         if bool_decide (p = []) then Response 404 (send_text (lit "Not found"))
         else match path_join_photos p with
              | in_photos file =>
                match photos d !! file with
                | None => Response 404 (send_text (lit "Photo not found"))
                | Some bytes => Response 200 (send_stream bytes)
                end
              | not_in_photos => elsewhere d p
              end
       end
     end, d).
Proof.
  unfold FileBackend.get_inventory_id_photo, find. run.
  destruct (list_find _ _) as [[idx it]|]; simpl; [|done].
  destruct (photo it) as [p|]; [|done].
  destruct (bool_decide (p = [])); simpl; [done|].
  destruct (path_join_photos p) as [file|]; [|done].
  by destruct (photos d !! file).
Qed.

End around_photos.

(** *** PUT /inventory/:id/photo *)

Lemma put_inventory_id_photo_DB_FILE req d :
  DB_FILE (after (put_inventory_id_photo req) d) =
    match list_find (λ x, id x = params_id req) (DB_FILE d), file req with
    | Some (idx, _), Some f => alter (set_photo (filename f)) idx (DB_FILE d)
    | _, _ => DB_FILE d
    end.
Proof.
  unfold put_inventory_id_photo. run.
  destruct (file req) as [f|]; simpl;
    by destruct (list_find _ _) as [[idx it]|].
Qed.

(** *** Names that stay non-empty *)

(** POST /register, PUT /inventory/:id/photo and DELETE keep every stored
    name non-empty; PUT /inventory/:id is the handler that does not. *)
Lemma post_register_keeps_named now req d :
  Forall named (DB_FILE d) →
  Forall named (DB_FILE (after (post_register now req) d)).
Proof.
  intros Hd. destruct (valid_name (body_inventory_name req)) eqn:Hv.
  - unfold after. rewrite (post_register_valid _ _ _ Hv). simpl.
    apply Forall_app. split; [done|]. apply Forall_singleton.
    by apply valid_name_truthy.
  - by destruct (post_register_invalid now req d Hv) as [_ ->].
Qed.

Lemma put_inventory_id_photo_keeps_named req d :
  Forall named (DB_FILE d) →
  Forall named (DB_FILE (after (put_inventory_id_photo req) d)).
Proof.
  intros Hd. rewrite put_inventory_id_photo_DB_FILE.
  destruct (list_find _ _) as [[idx it]|]; [|done].
  destruct (file req) as [f|]; [|done].
  apply Forall_alter; [done|]. by intros [].
Qed.

Lemma delete_inventory_id_keeps_named req d :
  Forall named (DB_FILE d) →
  Forall named (DB_FILE (after (delete_inventory_id req) d)).
Proof.
  intros Hd. unfold after. rewrite delete_inventory_id_run.
  destruct (list_find _ _) as [[idx it]|]; [|done]. simpl.
  by apply Forall_delete.
Qed.

End FileFacts.

(** ** The MySQL backend: what each handler does to the table *)

Module MySQLFacts.
Import MySQLBackend MySQLRuns.

Ltac run :=
  unfold reply, after, mbind, handler_bind, mret, handler_ret, asks,
    INSERT, SELECT_all, SELECT_WHERE_id, UPDATE_fields, UPDATE_photo, DELETE,
    readPhoto, upload_single in *; simpl in *.

(** *** POST /register *)

(** A truthy name is all it takes: the row is inserted under the next
    key, and the object sent back carries [description] as it came. *)
Lemma mysql_post_register_truthy req d :
  truthy (body_inventory_name req) = true →
  post_register req d =
    (Response 201
       (json_item (Row (AUTO_INCREMENT d) (body_inventory_name req)
                       (body_description req) (filename <$> file req))),
     Database
       (inventory d ++
        [Row (AUTO_INCREMENT d) (body_inventory_name req)
             (body_description req ||| JString []) (filename <$> file req)])
       (AUTO_INCREMENT d + 1)
       (PHOTOS_DIR (after (upload_single (file req)) d))).
Proof.
  intros Ht. unfold post_register. run. rewrite Ht. simpl.
  by destruct (file req).
Qed.

Lemma mysql_post_register_falsy req d :
  truthy (body_inventory_name req) = false →
  status (reply (post_register req) d) = 400
  ∧ inventory (after (post_register req) d) = inventory d
  ∧ AUTO_INCREMENT (after (post_register req) d) = AUTO_INCREMENT d.
Proof.
  intros Ht. unfold post_register. run. rewrite Ht. simpl.
  by destruct (file req).
Qed.

(** The key handed out is new, and the table stays below the counter. *)
Lemma mysql_post_register_key_fresh req d r :
  keys_below d →
  created (reply (post_register req) d) = Some r →
  Forall (λ x, id x ≠ id r) (inventory d)
  ∧ keys_below (after (post_register req) d).
Proof.
  intros Hk. destruct (truthy (body_inventory_name req)) eqn:Ht.
  - unfold reply, after. rewrite (mysql_post_register_truthy _ _ Ht). simpl.
    unfold created. simpl. intros [= <-]. simpl. split.
    + eapply Forall_impl; [exact Hk|]. simpl. lia.
    + unfold keys_below. simpl. apply Forall_app. split.
      * eapply Forall_impl; [exact Hk|]. simpl. lia.
      * apply Forall_singleton. simpl. lia.
  - destruct (mysql_post_register_falsy req d Ht) as (Hs & _).
    unfold created. case_bool_decide; [congruence|done].
Qed.

(** Each successful call of a sequence appends the row it stored. *)
Lemma mysql_post_registers_appends rs d :
  inventory (after (post_registers rs) d)
  = inventory d ++ (stored <$> omap created (reply (post_registers rs) d)).
Proof.
  revert d. induction rs as [|req rs IH]; intros d.
  - simpl. by rewrite app_nil_r.
  - unfold reply, after in *. simpl. unfold mbind, handler_bind at 1 3.
    destruct (post_register req d) as [r d1] eqn:E.
    unfold mbind, handler_bind.
    destruct (post_registers rs d1) as [rest d2] eqn:E2. simpl.
    specialize (IH d1). rewrite E2 in IH. simpl in IH. rewrite IH.
    destruct (truthy (body_inventory_name req)) eqn:Ht.
    + rewrite (mysql_post_register_truthy _ _ Ht) in E. injection E as <- <-.
      unfold created at 2. simpl. by rewrite <- app_assoc.
    + destruct (mysql_post_register_falsy req d Ht) as (Hs & Hd & _).
      unfold reply, after in Hs, Hd. rewrite E in Hs, Hd. simpl in Hs, Hd.
      rewrite Hd. unfold created at 2. rewrite Hs. done.
Qed.

(** *** GET /inventory/:id, DELETE /inventory/:id *)

Section by_id.
Context (id_matches : Z → jsstring → bool).

Local Abbreviation WHERE_id := (WHERE_id id_matches).
Local Abbreviation first_row := (first_row id_matches).
Local Abbreviation get_inventory_id := (get_inventory_id id_matches).
Local Abbreviation put_inventory_id := (put_inventory_id id_matches).
Local Abbreviation put_inventory_id_photo := (put_inventory_id_photo id_matches).
Local Abbreviation delete_inventory_id := (delete_inventory_id id_matches).

Lemma mysql_get_inventory_id_run req d :
  get_inventory_id req d =
    (match first_row (params_id req) d with
     | Some r => Response 200 (json_item r)
     | None => Response 404 (json_error (lit "Not found"))
     end, d).
Proof.
  unfold get_inventory_id, first_row. run.
  by destruct (filter _ _).
Qed.

Lemma mysql_delete_inventory_id_run req d :
  delete_inventory_id req d =
    match first_row (params_id req) d with
    | Some _ =>
      (Response 200 (json_message (lit "Deleted")),
       Database (filter (λ r, ¬ WHERE_id (params_id req) r) (inventory d))
                (AUTO_INCREMENT d) (PHOTOS_DIR d))
    | None => (Response 404 (json_error (lit "Not found")), d)
    end.
Proof.
  unfold delete_inventory_id, first_row. run.
  by destruct (filter _ _).
Qed.

Lemma filter_complement_nil {A} (P : A → Prop) `{!∀ x, Decision (P x)} (l : list A) :
  filter P (filter (λ x, ¬ P x) l) = [].
Proof.
  induction l as [|x l IH]; [done|].
  rewrite (filter_cons (λ x, ¬ P x)). destruct (decide (¬ P x)) as [Hn|Hn]; [|done].
  by rewrite filter_cons_False.
Qed.

(** A deleted id is gone: GET and a second DELETE both answer 404. *)
Lemma mysql_delete_then_not_found req d r :
  first_row (params_id req) d = Some r →
  status (reply (delete_inventory_id req) d) = 200
  ∧ status (reply (get_inventory_id req) (after (delete_inventory_id req) d)) = 404
  ∧ status (reply (delete_inventory_id req) (after (delete_inventory_id req) d)) = 404.
Proof.
  intros Hf. unfold reply, after.
  rewrite (mysql_delete_inventory_id_run req d), Hf. simpl.
  rewrite mysql_get_inventory_id_run, mysql_delete_inventory_id_run. unfold first_row. simpl.
  by rewrite filter_complement_nil.
Qed.

(** *** GET /inventory/:id/photo *)

Section around_photos.
Context (elsewhere : database → jsstring → response row).
Context (sendFile : request → list byte → response row).

Local Abbreviation get_inventory_id_photo :=
  (get_inventory_id_photo id_matches elsewhere sendFile).

Lemma mysql_get_inventory_id_photo_run req d :
  get_inventory_id_photo req d =
    (match first_row (params_id req) d with
     | None => Response 404 (send_text (lit "Photo not found"))
     | Some r =>
       match photo r with
       | None => Response 404 (send_text (lit "Photo not found"))
       | Some p =>
         if bool_decide (p = []) then Response 404 (send_text (lit "Photo not found"))
         else match path_join_photos p with
              | in_photos file =>
                match PHOTOS_DIR d !! file with
                | None => Response 404 (send_text (lit "File missing"))
                | Some bytes => sendFile req bytes
                end
              | not_in_photos => elsewhere d p
              end
       end
     end, d).
Proof.
  unfold MySQLBackend.get_inventory_id_photo, MySQLRuns.first_row. run.
  destruct (filter _ _) as [|r rows]; simpl; [done|].
  destruct (photo r) as [p|]; [|done].
  destruct (bool_decide (p = [])); simpl; [done|].
  destruct (path_join_photos p) as [file|]; [|done].
  by destruct (PHOTOS_DIR d !! file).
Qed.

End around_photos.

(** *** PUT /inventory/:id *)

Lemma mysql_put_inventory_id_run req d :
  put_inventory_id req d =
    match first_row (params_id req) d with
    | None => (Response 404 (json_error (lit "Not found")), d)
    | Some r0 =>
      (Response 200 (json_message (lit "Updated")),
       Database
         ((λ r, if decide (WHERE_id (params_id req) r)
                then Row (id r)
                         (body_inventory_name req ||| inventory_name r0)
                         (body_description req ||| description r0)
                         (photo r)
                else r) <$> inventory d)
         (AUTO_INCREMENT d) (PHOTOS_DIR d))
    end.
Proof.
  unfold put_inventory_id, first_row. run.
  by destruct (filter _ _).
Qed.

(** The handler has no check on the fields: a known id always answers
    200, whatever the body holds. *)
Lemma mysql_put_never_rejects req d r0 :
  first_row (params_id req) d = Some r0 →
  reply (put_inventory_id req) d = Response 200 (json_message (lit "Updated")).
Proof. intros Hf. unfold reply. by rewrite mysql_put_inventory_id_run, Hf. Qed.

Lemma first_row_elem p d r0 :
  first_row p d = Some r0 → r0 ∈ inventory d ∧ WHERE_id p r0.
Proof.
  unfold first_row. intros H.
  destruct (filter _ _) as [|r rows] eqn:E; simplify_eq/=.
  assert (r0 ∈ filter (WHERE_id p) (inventory d)) as Hin
    by (rewrite E; apply list_elem_of_here).
  apply list_elem_of_filter in Hin. tauto.
Qed.

(** A falsy [description], the empty string included, is replaced by
    the stored one: the rows the statement touches keep the description
    of the first of them. *)
Lemma mysql_put_falsy_description_kept req d r0 :
  first_row (params_id req) d = Some r0 →
  truthy (body_description req) = false →
  Forall (λ r, WHERE_id (params_id req) r → description r = description r0)
         (inventory (after (put_inventory_id req) d)).
Proof.
  intros Hf Ht. unfold after. rewrite mysql_put_inventory_id_run, Hf. simpl.
  apply Forall_fmap, Forall_forall. intros r _. simpl.
  destruct (decide (WHERE_id (params_id req) r)); [|done].
  intros _. simpl. unfold or_else. by rewrite Ht.
Qed.

(** *** Names that stay non-empty *)

Lemma or_else_truthy v w : truthy w = true → truthy (v ||| w) = true.
Proof. intros Hw. unfold or_else. by destruct (truthy v) eqn:Hv. Qed.

Lemma mysql_post_register_keeps_named req d :
  Forall named (inventory d) →
  Forall named (inventory (after (post_register req) d)).
Proof.
  intros Hd. destruct (truthy (body_inventory_name req)) eqn:Ht.
  - unfold after. rewrite (mysql_post_register_truthy _ _ Ht). simpl.
    apply Forall_app. split; [done|]. by apply Forall_singleton.
  - by destruct (mysql_post_register_falsy req d Ht) as (_ & -> & _).
Qed.

Lemma mysql_put_inventory_id_keeps_named req d :
  Forall named (inventory d) →
  Forall named (inventory (after (put_inventory_id req) d)).
Proof.
  intros Hd. unfold after. rewrite mysql_put_inventory_id_run.
  destruct (first_row _ _) as [r0|] eqn:Hf; [|done]. simpl.
  apply first_row_elem in Hf as [Hin _].
  assert (named r0) as Hr0 by (by eapply Forall_forall in Hd).
  apply Forall_fmap. eapply Forall_impl; [exact Hd|]. intros r Hr. simpl.
  destruct (decide _); [|done]. by apply or_else_truthy.
Qed.

Lemma mysql_put_inventory_id_photo_keeps_named req d :
  Forall named (inventory d) →
  Forall named (inventory (after (put_inventory_id_photo req) d)).
Proof.
  intros Hd. unfold put_inventory_id_photo. run.
  destruct (file req) as [f|]; simpl; [|done].
  destruct (filter _ _); simpl; [done|].
  apply Forall_fmap. eapply Forall_impl; [exact Hd|]. intros x Hx. simpl.
  by destruct (decide _).
Qed.

Lemma mysql_delete_inventory_id_keeps_named req d :
  Forall named (inventory d) →
  Forall named (inventory (after (delete_inventory_id req) d)).
Proof.
  intros Hd. unfold after. rewrite mysql_delete_inventory_id_run.
  destruct (first_row _ _); [|done]. simpl.
  apply Forall_forall. intros x [_ Hin]%list_elem_of_filter.
  by eapply Forall_forall in Hd.
Qed.

(** The handlers that look a row up leave the keys and the counter as
    they are, or remove rows. *)
Lemma mysql_by_id_handlers_keep_keys_below req d :
  keys_below d →
  keys_below (after (put_inventory_id req) d)
  ∧ keys_below (after (put_inventory_id_photo req) d)
  ∧ keys_below (after (delete_inventory_id req) d).
Proof.
  unfold keys_below. intros Hk. split_and!.
  - unfold after. rewrite mysql_put_inventory_id_run.
    destruct (first_row _ _); [|done]. simpl.
    apply Forall_fmap. eapply Forall_impl; [exact Hk|]. intros x Hx. simpl.
    by destruct (decide _).
  - unfold MySQLBackend.put_inventory_id_photo. run.
    destruct (file req) as [f|]; simpl; [|done].
    destruct (filter _ _); simpl; [done|].
    apply Forall_fmap. eapply Forall_impl; [exact Hk|]. intros x Hx. simpl.
    by destruct (decide _).
  - unfold after. rewrite mysql_delete_inventory_id_run.
    destruct (first_row _ _); [|done]. simpl.
    apply Forall_forall. intros x [_ Hin]%list_elem_of_filter.
    by eapply Forall_forall in Hk.
Qed.

(** Every handler that writes keeps the stored names non-empty. *)
Lemma mysql_handlers_keep_named req d :
  Forall named (inventory d) →
  Forall named (inventory (after (post_register req) d))
  ∧ Forall named (inventory (after (put_inventory_id req) d))
  ∧ Forall named (inventory (after (put_inventory_id_photo req) d))
  ∧ Forall named (inventory (after (delete_inventory_id req) d)).
Proof.
  intros Hd. split_and!.
  - by apply mysql_post_register_keeps_named.
  - by apply mysql_put_inventory_id_keeps_named.
  - by apply mysql_put_inventory_id_photo_keeps_named.
  - by apply mysql_delete_inventory_id_keeps_named.
Qed.

End by_id.

End MySQLFacts.

(** ** Stored photo names are multer's *)

Module PhotoNameFacts.
Import PhotoNames.

Lemma find_elem p db it : FileRuns.find p db = Some it → it ∈ db.
Proof.
  unfold FileRuns.find. intros H.
  destruct (list_find _ db) as [[i x]|] eqn:Hf; simplify_eq/=.
  apply list_find_Some in Hf as (Hi & _). by eapply list_elem_of_lookup_2.
Qed.

(** The file backend: a fresh array stores no name, and every handler
    that writes stores only the name of its upload. *)
Lemma file_handlers_keep_multer_named now req d :
  file_multer_named d →
  file_multer_named (after (FileBackend.post_register now req) d)
  ∧ file_multer_named (after (FileBackend.put_inventory_id req) d)
  ∧ file_multer_named (after (FileBackend.put_inventory_id_photo req) d)
  ∧ file_multer_named (after (FileBackend.delete_inventory_id req) d).
Proof.
  unfold file_multer_named. intros Hd. split_and!.
  - destruct (FileRuns.valid_name (body_inventory_name req)) eqn:Hv.
    + unfold after. rewrite (FileFacts.post_register_valid _ _ _ Hv). simpl.
      apply Forall_app. split; [done|]. apply Forall_singleton.
      simpl. intros p Hp. destruct (file req) as [f|]; simplify_eq/=.
      apply filename_multer_name.
    + by destruct (FileFacts.post_register_invalid now req d Hv) as [_ ->].
  - unfold FileBackend.put_inventory_id. FileFacts.run.
    destruct (list_find _ _) as [[idx it]|]; [|done].
    destruct (negb _ && negb _); simpl; [done|].
    repeat case_bool_decide; simpl;
      repeat (apply Forall_alter; [|by intros []]); done.
  - rewrite FileFacts.put_inventory_id_photo_DB_FILE.
    destruct (list_find _ _) as [[idx it]|]; [|done].
    destruct (file req) as [f|]; [|done].
    apply Forall_alter; [done|]. intros x _ Hx p Hp. simpl in Hp.
    injection Hp as <-. apply filename_multer_name.
  - unfold after. rewrite FileFacts.delete_inventory_id_run.
    destruct (list_find _ _) as [[idx it]|]; [|done]. simpl.
    by apply Forall_delete.
Qed.

(** The MySQL backend, for every comparison of keys. *)
Lemma mysql_handlers_keep_multer_named id_matches req d :
  mysql_multer_named d →
  mysql_multer_named (after (MySQLBackend.post_register req) d)
  ∧ mysql_multer_named (after (MySQLBackend.put_inventory_id id_matches req) d)
  ∧ mysql_multer_named
      (after (MySQLBackend.put_inventory_id_photo id_matches req) d)
  ∧ mysql_multer_named
      (after (MySQLBackend.delete_inventory_id id_matches req) d).
Proof.
  unfold mysql_multer_named. intros Hd. split_and!.
  - destruct (truthy (body_inventory_name req)) eqn:Ht.
    + unfold after. rewrite (MySQLFacts.mysql_post_register_truthy _ _ Ht).
      simpl. apply Forall_app. split; [done|]. apply Forall_singleton.
      simpl. intros p Hp. destruct (file req) as [f|]; simplify_eq/=.
      apply filename_multer_name.
    + by destruct (MySQLFacts.mysql_post_register_falsy req d Ht)
        as (_ & -> & _).
  - unfold after. rewrite MySQLFacts.mysql_put_inventory_id_run.
    destruct (MySQLRuns.first_row _ _ _); [|done]. simpl.
    apply Forall_fmap. eapply Forall_impl; [exact Hd|]. intros x Hx. simpl.
    by destruct (decide _).
  - unfold MySQLBackend.put_inventory_id_photo. MySQLFacts.run.
    destruct (file req) as [f|]; simpl; [|done].
    destruct (filter _ _); simpl; [done|].
    apply Forall_fmap. eapply Forall_impl; [exact Hd|]. intros x Hx. simpl.
    destruct (decide _); [|done]. simpl. intros p Hp.
    injection Hp as <-. apply filename_multer_name.
  - unfold after. rewrite MySQLFacts.mysql_delete_inventory_id_run.
    destruct (MySQLRuns.first_row _ _ _); [|done]. simpl.
    apply Forall_forall. intros x [_ Hin]%list_elem_of_filter.
    by eapply Forall_forall in Hd.
Qed.

Lemma empty_stores_multer_named :
  file_multer_named empty_disk ∧ mysql_multer_named empty_table.
Proof. split; constructor. Qed.

End PhotoNameFacts.

(** ** The contract, claim by claim *)

Section Claims.
Import FileBackend.

(** Two registrations served in the same millisecond get the same id,
    whatever the clock shows and whatever the array held. *)
Lemma post_register_same_clock_same_id now req1 req2 d it1 it2 :
  created (reply (post_register now req1) d) = Some it1 →
  created (reply (post_register now req2) (after (post_register now req1) d))
    = Some it2 →
  id it1 = id it2.
Proof.
  intros (-> & _)%FileFacts.post_register_created
         (-> & _)%FileFacts.post_register_created.
  done.
Qed.

(** C1: every Create returns an id that differs from the id of every item
    created before.  The file backend breaks it: the id is the text of
    [Date.now()], so "Drill" and "Saw" registered in the same millisecond
    are both stored, with one and the same id. *)
Theorem C1_same_millisecond_same_id :
  let drill := Item (lit "1700000000000") (JString (lit "Drill")) (JString []) None in
  let saw := Item (lit "1700000000000") (JString (lit "Saw")) (JString []) None in
  post_register t0 (fields (JString (lit "Drill")) undefined) empty_disk
    = (Response 201 (json_item drill), Disk [drill] ∅)
  ∧ post_register t0 (fields (JString (lit "Saw")) undefined) (Disk [drill] ∅)
    = (Response 201 (json_item saw), Disk [drill; saw] ∅)
  ∧ id drill = id saw.
Proof. by vm_compute. Qed.

(** C2: an explicitly supplied empty description is a real update.  The
    MySQL backend breaks it: it binds [description || rows[0].description],
    so PUT /inventory/1 with the name "Hammer" and the description ""
    renames the row and keeps the description "cordless". *)
Theorem C2_mysql_empty_description_ignored :
  MySQLBackend.put_inventory_id MySQLBackend.decimal_token
    (on_id (lit "1") (JString (lit "Hammer")) (JString [])) table_with_drill
  = (Response 200 (json_message (lit "Updated")),
     MySQLBackend.Database
       [MySQLBackend.Row 1 (JString (lit "Hammer")) (JString (lit "cordless")) None]
       2 ∅).
Proof. by vm_compute. Qed.

(** C3: an update that supplies neither field fails with 400 and never
    succeeds as a silent no-op.  The MySQL backend breaks it: PUT
    /inventory/1 with an empty body answers 200 "Updated" and rewrites the
    row with its own values. *)
Theorem C3_mysql_empty_update_accepted :
  MySQLBackend.put_inventory_id MySQLBackend.decimal_token
    (on_id (lit "1") undefined undefined) table_with_drill
  = (Response 200 (json_message (lit "Updated")), table_with_drill).
Proof. by vm_compute. Qed.

(** C4: a name made of white space only is refused with 400 and nothing
    is stored.  The MySQL backend breaks it: it tests [!inventory_name]
    alone, so POST /register with the name of three spaces answers 201 and
    inserts the row. *)
Theorem C4_mysql_blank_name_stored :
  MySQLBackend.post_register (fields (JString (lit "   ")) undefined) empty_table
  = (Response 201
       (json_item (MySQLBackend.Row 1 (JString (lit "   ")) undefined None)),
     MySQLBackend.Database
       [MySQLBackend.Row 1 (JString (lit "   ")) (JString []) None] 2 ∅).
Proof. by vm_compute. Qed.

(** C5: after Delete(id), GetByID(id) and a second Delete(id) answer 404.
    The file backend breaks it on the array of C1: DELETE splices out the
    first of the two items sharing the id, so GET still finds "Saw" and a
    second DELETE succeeds again. *)
Theorem C5_delete_leaves_item_with_same_id :
  let saw := Item (lit "1700000000000") (JString (lit "Saw")) (JString []) None in
  let req := on_id (lit "1700000000000") undefined undefined in
  delete_inventory_id req disk_with_twins
    = (Response 200 (json_message (lit "Item with id 1700000000000 deleted")),
       Disk [saw] ∅)
  ∧ get_inventory_id req (Disk [saw] ∅)
    = (Response 200 (json_item saw), Disk [saw] ∅)
  ∧ delete_inventory_id req (Disk [saw] ∅)
    = (Response 200 (json_message (lit "Item with id 1700000000000 deleted")),
       Disk [] ∅).
Proof. by vm_compute. Qed.

(** C6: no operation stores a record whose name is empty.  The file
    backend breaks it: PUT /inventory/:id only refuses a body in which
    both fields are falsy, so with the name "" and the description "x"
    it writes the empty name into the array. *)
Theorem C6_put_stores_empty_name :
  let emptied := Item (lit "1700000000000") (JString []) (JString (lit "x")) None in
  Forall FileRuns.named (DB_FILE disk_with_drill)
  ∧ put_inventory_id
      (on_id (lit "1700000000000") (JString []) (JString (lit "x"))) disk_with_drill
    = (Response 200 (json_item emptied), Disk [emptied] ∅)
  ∧ ¬ Forall FileRuns.named [emptied].
Proof.
  split_and!; [by repeat constructor | by vm_compute |].
  intros H. by apply Forall_inv in H.
Qed.

(** C7: the item a successful Create returns has the description "" when
    none was given.  The MySQL backend breaks it: it stores
    [description || ""] and sends back [description] itself, so the object
    of the 201 response for "Drill" has no description at all while the
    stored row has the empty one. *)
Theorem C7_mysql_returned_description_undefined :
  MySQLBackend.post_register (fields (JString (lit "Drill")) undefined) empty_table
  = (Response 201
       (json_item (MySQLBackend.Row 1 (JString (lit "Drill")) undefined None)),
     MySQLBackend.Database
       [MySQLBackend.Row 1 (JString (lit "Drill")) (JString []) None] 2 ∅).
Proof. by vm_compute. Qed.

(** *** Listing *)

(** C8: after any sequence of POST /register calls on an empty collection,
    GET /inventory answers 200 with exactly the items of the successful
    calls, in the order of the calls, and on an empty collection it answers
    200 with the empty array.  In the file backend the items are the ones
    sent back; in the MySQL backend they are the rows stored for them. *)
Theorem C8_list_returns_created_in_order :
  (∀ (rs : list (Z * request)) (blobs : gmap jsstring (list byte)),
     let d := Disk [] blobs in
     reply get_inventory (after (FileRuns.post_registers rs) d)
     = Response 200
         (json_items (omap created (reply (FileRuns.post_registers rs) d))))
  ∧ (∀ blobs, reply get_inventory (Disk [] blobs) = Response 200 (json_items []))
  ∧ (∀ (rs : list request) (next : Z) (blobs : gmap jsstring (list byte)),
       let d := MySQLBackend.Database [] next blobs in
       reply MySQLBackend.get_inventory (after (MySQLRuns.post_registers rs) d)
       = Response 200
           (json_items (MySQLRuns.stored <$>
                          omap created (reply (MySQLRuns.post_registers rs) d))))
  ∧ (∀ next blobs,
       reply MySQLBackend.get_inventory (MySQLBackend.Database [] next blobs)
       = Response 200 (json_items [])).
Proof.
  split_and!; try done.
  - intros rs blobs d. unfold reply at 1. rewrite FileFacts.get_inventory_run.
    simpl. by rewrite FileFacts.post_registers_appends.
  - intros rs next blobs d. unfold reply at 1, MySQLBackend.get_inventory.
    unfold mbind, handler_bind, MySQLBackend.SELECT_all. simpl.
    by rewrite MySQLFacts.mysql_post_registers_appends.
Qed.

(** When every name of the sequence is valid, every call succeeds: the
    listing has as many items as there were calls. *)
Lemma post_registers_all_valid rs d :
  Forall (λ '(_, req), FileRuns.valid_name (body_inventory_name req) = true) rs →
  omap created (reply (FileRuns.post_registers rs) d)
  = (λ '(now, req), FileRuns.newItem now req) <$> rs.
Proof.
  intros Hrs. revert d. induction Hrs as [|[now req] rs Hv _ IH]; intros d; [done|].
  unfold reply in *. simpl. unfold mbind, handler_bind at 1.
  rewrite (FileFacts.post_register_valid _ _ _ Hv).
  unfold mbind, handler_bind.
  destruct (FileRuns.post_registers rs _) as [rest d2] eqn:E. simpl.
  specialize (IH (Disk (DB_FILE d ++ [FileRuns.newItem now req])
                       (photos (after (upload_single (file req)) d)))).
  rewrite E in IH. simpl in IH. f_equal. exact IH.
Qed.

(** *** Photos *)

Lemma find_None p db :
  FileRuns.find p db = None ↔ Forall (λ x, id x ≠ p) db.
Proof. unfold FileRuns.find. rewrite fmap_None. apply list_find_None. Qed.

Lemma first_row_None id_matches p d :
  MySQLRuns.first_row id_matches p d = None
  ↔ Forall (λ r, ¬ MySQLBackend.WHERE_id id_matches p r) (MySQLBackend.inventory d).
Proof.
  unfold MySQLRuns.first_row. rewrite head_None. split.
  - intros E. apply Forall_forall. intros r Hin Hr.
    by apply (filter_nil_not_elem_of _ _ r E).
  - intros H. induction H as [|r l Hr _ IH]; [done|].
    by rewrite filter_cons_False.
Qed.

(** C9: GET /inventory/:id/photo answers 404 exactly when no item has the
    id, or the item found has no photo reference, or the blob it names is
    missing from the photo store; otherwise it answers 200 with the bytes
    of that blob.  Both backends, on every store whose photo names are
    names multer gave (the only names the handlers store, so that
    [path.join] leads to the file of that name in the photo directory).
    The file backend streams the blob itself.  The MySQL backend, for every
    way the engine may compare the key with the path parameter, hands the
    blob to [res.sendFile]: it answers 404 in the three cases and what
    [res.sendFile] answers otherwise, so 404 in these cases only when
    [res.sendFile] does not answer 404 for a file that exists, and 200
    with the bytes when it sends the file whole, as for a GET without
    [Range] or conditional headers. *)
Theorem C9_photo_404_exactly_when_nothing_to_send :
  (∀ elsewhere req d,
     PhotoNames.file_multer_named d →
     let r := reply (get_inventory_id_photo elsewhere req) d in
     (status r = 404 ↔ FileRuns.no_photo_for (params_id req) d)
     ∧ (status r ≠ 404 →
        ∃ it name bytes,
          FileRuns.find (params_id req) (DB_FILE d) = Some it
          ∧ photo it = Some name
          ∧ photos d !! name = Some bytes
          ∧ r = Response 200 (send_stream bytes)))
  ∧ (∀ id_matches elsewhere sendFile req d,
       PhotoNames.mysql_multer_named d →
       let r := reply (MySQLBackend.get_inventory_id_photo
                         id_matches elsewhere sendFile req) d in
       (MySQLRuns.no_photo_for id_matches (params_id req) d → status r = 404)
       ∧ (¬ MySQLRuns.no_photo_for id_matches (params_id req) d →
          ∃ row name bytes,
            MySQLRuns.first_row id_matches (params_id req) d = Some row
            ∧ MySQLBackend.photo row = Some name
            ∧ MySQLBackend.PHOTOS_DIR d !! name = Some bytes
            ∧ r = sendFile req bytes
            ∧ (sendFile req bytes = whole_file req bytes →
               r = Response 200 (send_stream bytes)))
       ∧ ((∀ bytes, status (sendFile req bytes) ≠ 404) →
          (status r = 404 ↔ MySQLRuns.no_photo_for id_matches (params_id req) d))).
Proof.
  split.
  - intros elsewhere req d Hnames r. subst r. unfold reply.
    rewrite FileFacts.get_inventory_id_photo_run. simpl.
    destruct (FileRuns.find _ _) as [it|] eqn:Hf.
    + destruct (photo it) as [name|] eqn:Hp.
      * case_bool_decide as Hn.
        { split; [|done]. split; [|done]. intros _.
          eapply FileRuns.no_reference; [done|]. right. by rewrite Hp, Hn. }
        assert (multer_name name = true) as Hm.
        { pose proof (PhotoNameFacts.find_elem _ _ _ Hf) as Hin.
          eapply Forall_forall in Hnames; [|exact Hin]. by apply Hnames. }
        rewrite (path_join_photos_multer_name _ Hm).
        destruct (photos d !! name) as [bytes|] eqn:Hb; simpl.
        { split; [|by eauto 10]. split; [done|].
          intros [Hno|it' Hf' Hph|it' name' Hf' Hp' Hb'].
          - apply find_None in Hno. congruence.
          - destruct Hph; congruence.
          - congruence. }
        split; [|done]. split; [|done]. intros _.
        by eapply FileRuns.blob_missing.
      * split; [|done]. split; [|done]. intros _.
        eapply FileRuns.no_reference; [done|]. by left.
    + split; [|done]. split; [|done]. intros _.
      by apply FileRuns.no_item, find_None.
  - intros id_matches elsewhere sendFile req d Hnames r. subst r. unfold reply.
    rewrite MySQLFacts.mysql_get_inventory_id_photo_run. simpl.
    destruct (MySQLRuns.first_row _ _) as [row|] eqn:Hf.
    + destruct (MySQLBackend.photo row) as [name|] eqn:Hp.
      * case_bool_decide as Hn.
        { assert (MySQLRuns.no_photo_for id_matches (params_id req) d) as Hno.
          { eapply MySQLRuns.no_reference; [done|]. right. by rewrite Hp, Hn. }
          by split_and!. }
        assert (multer_name name = true) as Hm.
        { pose proof (MySQLFacts.first_row_elem _ _ _ _ Hf) as [Hin _].
          eapply Forall_forall in Hnames; [|exact Hin]. by apply Hnames. }
        rewrite (path_join_photos_multer_name _ Hm).
        destruct (MySQLBackend.PHOTOS_DIR d !! name) as [bytes|] eqn:Hb; simpl.
        { assert (¬ MySQLRuns.no_photo_for id_matches (params_id req) d) as Hyes.
          { intros [Hno|row' Hf' Hph|row' name' Hf' Hp' Hb'].
            - apply first_row_None in Hno. congruence.
            - destruct Hph; congruence.
            - congruence. }
          split_and!; [done| |].
          - intros _. exists row, name, bytes. by split_and!.
          - intros Hsend. split; [|done]. intros Hs. by apply Hsend in Hs. }
        assert (MySQLRuns.no_photo_for id_matches (params_id req) d) as Hno
          by (by eapply MySQLRuns.blob_missing).
        by split_and!.
      * assert (MySQLRuns.no_photo_for id_matches (params_id req) d) as Hno.
        { eapply MySQLRuns.no_reference; [done|]. by left. }
        by split_and!.
    + assert (MySQLRuns.no_photo_for id_matches (params_id req) d) as Hno
        by (by apply MySQLRuns.no_item, first_row_None).
      by split_and!.
Qed.

(** *** Search *)

(** C10: POST /search never writes: the cache directory after the call is
    the one before it, for every form.  When [includePhoto] is truthy the
    photo path is appended to the description of the copy that is sent,
    and the stored item keeps its description. *)
Theorem C10_search_leaves_store_unchanged :
  ∀ req d,
    after (post_search req) d = d
    ∧ (∀ idx it,
         list_find (λ x, JString (id x) = body_id req) (DB_FILE d) = Some (idx, it) →
         reply (post_search req) d
         = Response 200
             (json_item (if truthy (body_includePhoto req)
                         then annotate (body_id req) it else it))
         ∧ DB_FILE (after (post_search req) d) !! idx = Some it)
    ∧ (list_find (λ x, JString (id x) = body_id req) (DB_FILE d) = None →
       reply (post_search req) d = Response 404 (send_text (lit "Not found"))).
Proof.
  intros req d. split_and!.
  - apply FileFacts.post_search_keeps_disk.
  - intros idx it Hf. split.
    + exact (FileFacts.post_search_found req d idx it Hf).
    + rewrite FileFacts.post_search_keeps_disk.
      by apply list_find_Some in Hf as (Hi & _).
  - apply FileFacts.post_search_not_found.
Qed.

(** The search of the stored "Drill" with [includePhoto] set sends the
    description with the photo path appended; a GET afterwards reads the
    description as it was stored. *)
Example search_annotates_the_copy_only :
  let req := search_form (JString (lit "1700000000000")) (JString (lit "on")) in
  reply (post_search req) disk_with_drill
  = Response 200
      (json_item
         (Item (lit "1700000000000") (JString (lit "Drill"))
               (JString (lit "cordless" ++ [10%N]
                         ++ lit "Photo: /inventory/1700000000000/photo"))
               None))
  ∧ reply (get_inventory_id (on_id (lit "1700000000000") undefined undefined))
          (after (post_search req) disk_with_drill)
    = Response 200 (json_item stored_drill).
Proof. by vm_compute. Qed.

End Claims.

(** ** The conditional lemmas at concrete requests *)

Section Witnesses.
Import FileBackend.

(** Three spaces as the name: 400, and the array stays empty. *)
Lemma post_register_blank_rejected_witness :
  status (reply (post_register t0 (fields (JString (lit "   ")) undefined)) empty_disk)
    = 400
  ∧ DB_FILE (after (post_register t0 (fields (JString (lit "   ")) undefined)) empty_disk)
    = DB_FILE empty_disk.
Proof.
  apply (FileFacts.post_register_blank_rejected
           t0 (fields (JString (lit "   ")) undefined) empty_disk (lit "   ")).
  right. split; reflexivity.
Defined.

(** "Drill" without a description or a photo comes back with the empty
    description and the null photo. *)
Lemma post_register_sends_populated_item_witness :
  let it := Item (lit "1700000000000") (JString (lit "Drill")) (JString []) None in
  id it = number_toString t0
  ∧ inventory_name it = JString (lit "Drill")
  ∧ (truthy undefined = false → description it = JString [])
  ∧ (truthy undefined = true → description it = undefined)
  ∧ (@None upload = None → photo it = None)
  ∧ (∀ f, None = Some f → photo it = Some (filename f))
  ∧ last (DB_FILE (after (post_register t0 (fields (JString (lit "Drill")) undefined))
                     empty_disk)) = Some it.
Proof.
  apply (FileFacts.post_register_sends_populated_item
           t0 (fields (JString (lit "Drill")) undefined) empty_disk).
  vm_compute. reflexivity.
Defined.

(** An empty description alone on the stored "Drill": 400, nothing
    written. *)
Lemma put_no_fields_rejected_witness :
  put_inventory_id (on_id (lit "1700000000000") undefined (JString [])) disk_with_drill
  = (Response 400 (json_error (lit "No fields provided for update")), disk_with_drill).
Proof.
  apply (FileFacts.put_no_fields_rejected
           (on_id (lit "1700000000000") undefined (JString [])) disk_with_drill
           0%nat stored_drill); vm_compute; reflexivity.
Defined.

(** A new name with an empty description on the stored "Drill": both are
    written, the id and the photo stay. *)
Lemma put_overwrites_supplied_witness :
  put_inventory_id
    (on_id (lit "1700000000000") (JString (lit "Hammer")) (JString [])) disk_with_drill
  = (Response 200
       (json_item (FileRuns.updated
          (on_id (lit "1700000000000") (JString (lit "Hammer")) (JString [])) stored_drill)),
     Disk (alter (FileRuns.updated
             (on_id (lit "1700000000000") (JString (lit "Hammer")) (JString [])))
             0%nat (DB_FILE disk_with_drill))
          (photos disk_with_drill)).
Proof.
  apply (FileFacts.put_overwrites_supplied
           (on_id (lit "1700000000000") (JString (lit "Hammer")) (JString []))
           disk_with_drill 0%nat stored_drill); vm_compute; reflexivity.
Defined.

(** The stored "Drill" deleted: GET and a second DELETE answer 404. *)
Lemma delete_then_not_found_witness :
  let req := on_id (lit "1700000000000") undefined undefined in
  status (reply (delete_inventory_id req) disk_with_drill) = 200
  ∧ status (reply (get_inventory_id req) (after (delete_inventory_id req) disk_with_drill))
    = 404
  ∧ status (reply (delete_inventory_id req) (after (delete_inventory_id req) disk_with_drill))
    = 404.
Proof.
  apply (FileFacts.delete_then_not_found
           (on_id (lit "1700000000000") undefined undefined) disk_with_drill 0%nat stored_drill).
  - vm_compute. apply NoDup_singleton.
  - vm_compute. reflexivity.
Defined.

(** "Drill" and "Saw" registered one millisecond apart: two items, in
    that order. *)
Lemma post_registers_all_valid_witness :
  omap created
    (reply (FileRuns.post_registers
              [(t0, fields (JString (lit "Drill")) undefined);
               (t0 + 1, fields (JString (lit "Saw")) undefined)]) empty_disk)
  = [Item (lit "1700000000000") (JString (lit "Drill")) (JString []) None;
     Item (lit "1700000000001") (JString (lit "Saw")) (JString []) None].
Proof.
  apply (post_registers_all_valid
           [(t0, fields (JString (lit "Drill")) undefined);
            (t0 + 1, fields (JString (lit "Saw")) undefined)] empty_disk).
  repeat constructor.
Defined.

(** The table: the second registration gets the key 2. *)
Lemma mysql_post_register_key_fresh_witness :
  let req := fields (JString (lit "Saw")) undefined in
  Forall (λ x, MySQLBackend.id x ≠ 2) (MySQLBackend.inventory table_with_drill)
  ∧ MySQLRuns.keys_below (after (MySQLBackend.post_register req) table_with_drill).
Proof.
  apply (MySQLFacts.mysql_post_register_key_fresh
           (fields (JString (lit "Saw")) undefined) table_with_drill
           (MySQLBackend.Row 2 (JString (lit "Saw")) undefined None)).
  - apply Forall_singleton. vm_compute. reflexivity.
  - vm_compute. reflexivity.
Defined.

(** Row 1 deleted: GET and a second DELETE answer 404. *)
Lemma mysql_delete_then_not_found_witness :
  let req := on_id (lit "1") undefined undefined in
  let delete_1 := MySQLBackend.delete_inventory_id MySQLBackend.decimal_token req in
  status (reply delete_1 table_with_drill) = 200
  ∧ status (reply (MySQLBackend.get_inventory_id MySQLBackend.decimal_token req)
              (after delete_1 table_with_drill)) = 404
  ∧ status (reply delete_1 (after delete_1 table_with_drill)) = 404.
Proof.
  apply (MySQLFacts.mysql_delete_then_not_found
           MySQLBackend.decimal_token (on_id (lit "1") undefined undefined)
           table_with_drill
           (MySQLBackend.Row 1 (JString (lit "Drill")) (JString (lit "cordless")) None)).
  vm_compute. reflexivity.
Defined.

(** Row 1 keeps a non-empty name under an update that sends the empty
    one. *)
Lemma mysql_handlers_keep_named_witness :
  let req := on_id (lit "1") (JString []) (JString (lit "x")) in
  Forall MySQLRuns.named
    (MySQLBackend.inventory (after (MySQLBackend.post_register req) table_with_drill))
  ∧ Forall MySQLRuns.named
      (MySQLBackend.inventory
         (after (MySQLBackend.put_inventory_id MySQLBackend.decimal_token req)
            table_with_drill))
  ∧ Forall MySQLRuns.named
      (MySQLBackend.inventory
         (after (MySQLBackend.put_inventory_id_photo MySQLBackend.decimal_token req)
            table_with_drill))
  ∧ Forall MySQLRuns.named
      (MySQLBackend.inventory
         (after (MySQLBackend.delete_inventory_id MySQLBackend.decimal_token req)
            table_with_drill)).
Proof.
  apply (MySQLFacts.mysql_handlers_keep_named
           MySQLBackend.decimal_token
           (on_id (lit "1") (JString []) (JString (lit "x"))) table_with_drill).
  apply Forall_singleton. vm_compute. reflexivity.
Defined.

(** The photo handler of both backends on the stored "Drill": before an
    upload there is no reference and the answer is 404; after the upload
    of [drill_jpeg] the stored name is multer's and the answer is 200 with
    its bytes. *)
Lemma C9_photo_witness :
  let req := on_id (lit "1700000000000") undefined undefined in
  let q := on_id (lit "1") undefined undefined in
  let m := MySQLBackend.decimal_token in
  (PhotoNames.file_multer_named disk_with_drill
   ∧ FileRuns.no_photo_for (params_id req) disk_with_drill
   ∧ status (reply (get_inventory_id_photo nothing_elsewhere req) disk_with_drill)
     = 404)
  ∧ (PhotoNames.file_multer_named disk_with_photo
     ∧ ¬ FileRuns.no_photo_for (params_id req) disk_with_photo
     ∧ reply (get_inventory_id_photo nothing_elsewhere req) disk_with_photo
       = Response 200 (send_stream [Byte.xff; Byte.xd8; Byte.xff; Byte.xe0]))
  ∧ (PhotoNames.mysql_multer_named table_with_drill
     ∧ MySQLRuns.no_photo_for m (params_id q) table_with_drill
     ∧ status (reply (MySQLBackend.get_inventory_id_photo
                        m nothing_elsewhere whole_file q)
                     table_with_drill)
       = 404)
  ∧ (PhotoNames.mysql_multer_named table_with_photo
     ∧ ¬ MySQLRuns.no_photo_for m (params_id q) table_with_photo
     ∧ reply (MySQLBackend.get_inventory_id_photo
                m nothing_elsewhere whole_file q)
             table_with_photo
       = Response 200 (send_stream [Byte.xff; Byte.xd8; Byte.xff; Byte.xe0])).
Proof.
  intros req q m.
  destruct C9_photo_404_exactly_when_nothing_to_send as [Hfile Hmysql].
  assert (PhotoNames.file_multer_named disk_with_drill) as Hd.
  { apply Forall_singleton. intros p. vm_compute. discriminate. }
  assert (PhotoNames.file_multer_named disk_with_photo) as Hp.
  { apply Forall_singleton. intros p [= <-]. vm_compute. reflexivity. }
  assert (PhotoNames.mysql_multer_named table_with_drill) as Ht.
  { apply Forall_singleton. intros p. vm_compute. discriminate. }
  assert (PhotoNames.mysql_multer_named table_with_photo) as Htp.
  { apply Forall_singleton. intros p [= <-]. vm_compute. reflexivity. }
  assert (FileRuns.no_photo_for (params_id req) disk_with_drill) as Hno.
  { apply (FileRuns.no_reference _ _ stored_drill); [reflexivity|by left]. }
  assert (MySQLRuns.no_photo_for m (params_id q) table_with_drill) as Hnot.
  { apply (MySQLRuns.no_reference _ _ _ stored_drill_row);
      [vm_compute; reflexivity|by left]. }
  split_and!; try assumption.
  - by apply (Hfile nothing_elsewhere req disk_with_drill Hd).
  - intros Hn. apply (Hfile nothing_elsewhere req disk_with_photo Hp) in Hn.
    revert Hn. vm_compute. discriminate.
  - destruct (Hfile nothing_elsewhere req disk_with_photo Hp) as [_ Hsent].
    destruct (Hsent ltac:(vm_compute; discriminate))
      as (it & name & bytes & Hf & Hph & Hb & ->).
    vm_compute in Hf. injection Hf as <-.
    vm_compute in Hph. injection Hph as <-.
    revert Hb. vm_compute. intros [= <-]. reflexivity.
  - by apply (Hmysql m nothing_elsewhere whole_file q table_with_drill Ht).
  - intros Hn.
    destruct (Hmysql m nothing_elsewhere whole_file q table_with_photo Htp)
      as (H404 & _).
    apply H404 in Hn. revert Hn. vm_compute. discriminate.
  - destruct (Hmysql m nothing_elsewhere whole_file q table_with_photo Htp)
      as (_ & Hsent & Hiff).
    assert (¬ MySQLRuns.no_photo_for m (params_id q) table_with_photo) as Hn.
    { intros Hn. apply Hiff in Hn; [|done]. revert Hn. vm_compute.
      discriminate. }
    destruct (Hsent Hn) as (row & name & bytes & Hf & Hph & Hb & _ & Hr).
    rewrite Hr by done.
    vm_compute in Hf. injection Hf as <-.
    vm_compute in Hph. injection Hph as <-.
    revert Hb. vm_compute. intros [= <-]. reflexivity.
Defined.

End Witnesses.

(** ** The file backend: how the handlers compose *)

Module FileLaws.
Import FileBackend FileRuns.

(** Changing the element found, by a function that keeps the searched
    key, leaves it the element found. *)
Lemma list_find_alter_same {A} (P : A → Prop) `{!∀ x, Decision (P x)}
    (f : A → A) (l : list A) (i : nat) (x : A) :
  (∀ y, P (f y) ↔ P y) →
  list_find P l = Some (i, x) →
  list_find P (alter f i l) = Some (i, f x).
Proof.
  intros Hf (Hi & HP & Hlt)%list_find_Some. apply list_find_Some. split_and!.
  - by rewrite list_lookup_alter_eq, Hi.
  - by apply Hf.
  - intros j y Hj Hji. rewrite list_lookup_alter_ne in Hj by lia. by eapply Hlt.
Qed.

(** A field that the change of one element keeps is kept in the whole
    list. *)
Lemma fmap_alter_kept {A B} (g : A → B) (f : A → A) (idx : nat) (l : list A) :
  (∀ x, g (f x) = g x) → g <$> alter f idx l = g <$> l.
Proof.
  intros Hg.
  rewrite (list_fmap_alter g f (λ x, x)) by (by apply Forall_forall).
  by apply list_alter_id.
Qed.

(** PUT /inventory/:id, case by case. *)
Lemma put_inventory_id_cases req d :
  put_inventory_id req d =
    match list_find (λ x, id x = params_id req) (DB_FILE d) with
    | None => (Response 404 (json_error (lit "Not found")), d)
    | Some (idx, it) =>
      if negb (truthy (body_inventory_name req))
         && negb (truthy (body_description req))
      then (Response 400 (json_error (lit "No fields provided for update")), d)
      else (Response 200 (json_item (updated req it)),
            Disk (alter (updated req) idx (DB_FILE d)) (photos d))
    end.
Proof.
  unfold put_inventory_id. FileFacts.run.
  destruct (list_find _ _) as [[idx it]|] eqn:Hf; [|done].
  destruct (negb _ && negb _); [done|].
  apply list_find_Some in Hf as (Hi & _ & _).
  assert (∀ db' : list item, db' = alter (updated req) idx (DB_FILE d) →
    (Response 200 (json_at db' idx), Disk db' (photos d))
    = (Response 200 (json_item (updated req it)),
       Disk (alter (updated req) idx (DB_FILE d)) (photos d))) as Hgo.
  { intros db' ->. unfold json_at. by rewrite list_lookup_alter_eq, Hi. }
  apply Hgo. unfold updated.
  repeat case_bool_decide; rewrite ?list_alter_alter_eq;
    try (apply list_alter_ext; [intros [] ?; done | done]).
  symmetry. replace (DB_FILE d) with (alter (λ x, x) idx (DB_FILE d)) at 2
    by (by apply list_alter_id).
  apply list_alter_ext; [intros [] ?; done | done].
Qed.

(** PUT /inventory/:id/photo, case by case; the upload is on disk in
    every case. *)
Lemma put_inventory_id_photo_cases req d :
  put_inventory_id_photo req d =
    match list_find (λ x, id x = params_id req) (DB_FILE d), file req with
    | None, _ =>
      (Response 404 (json_error (lit "Not found")),
       after (upload_single (file req)) d)
    | Some _, None => (Response 400 (json_error (lit "Photo missing")), d)
    | Some (idx, _), Some f =>
      (Response 200 (json_message (lit "Photo updated")),
       Disk (alter (set_photo (filename f)) idx (DB_FILE d))
            (<[filename f := content f]> (photos d)))
    end.
Proof.
  unfold put_inventory_id_photo. FileFacts.run.
  destruct (file req) as [f|]; simpl;
    by destruct (list_find _ _) as [[idx it]|].
Qed.

(** *** Round trips *)

(** A registration under an id no stored item has: GET /inventory/:id
    with that id answers the item the registration sent back. *)
Lemma register_then_get now req d it q :
  created (reply (post_register now req) d) = Some it →
  Forall (λ x, id x ≠ number_toString now) (DB_FILE d) →
  params_id q = id it →
  reply (get_inventory_id q) (after (post_register now req) d)
  = Response 200 (json_item it).
Proof.
  intros (Hid & _ & _ & _ & Hdb)%FileFacts.post_register_created Hfresh Hq.
  unfold reply. rewrite FileFacts.get_inventory_id_run. simpl.
  rewrite Hdb, Hq, Hid. unfold find.
  rewrite list_find_app_r by (by apply list_find_None).
  simpl. by rewrite decide_True.
Qed.

(** A registration under an id some stored item already has: GET
    /inventory/:id keeps answering the older item, and the new one cannot
    be reached by its id. *)
Lemma register_repeated_id_shadowed now req d it old q :
  created (reply (post_register now req) d) = Some it →
  find (number_toString now) (DB_FILE d) = Some old →
  params_id q = id it →
  reply (get_inventory_id q) (after (post_register now req) d)
  = Response 200 (json_item old).
Proof.
  intros (Hid & _ & _ & _ & Hdb)%FileFacts.post_register_created Hold Hq.
  unfold reply. rewrite FileFacts.get_inventory_id_run. simpl.
  rewrite Hdb, Hq, Hid. unfold find in *.
  destruct (list_find _ (DB_FILE d)) as [[i x]|] eqn:Hf; simplify_eq/=.
  by rewrite (list_find_app_l _ _ _ _ _ Hf).
Qed.

(** A successful PUT /inventory/:id is read back: GET /inventory/:id
    answers the item the PUT answered. *)
Lemma put_then_get req d idx it :
  list_find (λ x, id x = params_id req) (DB_FILE d) = Some (idx, it) →
  truthy (body_inventory_name req) || truthy (body_description req) = true →
  reply (put_inventory_id req) d = Response 200 (json_item (updated req it))
  ∧ reply (get_inventory_id req) (after (put_inventory_id req) d)
    = Response 200 (json_item (updated req it)).
Proof.
  intros Hf Ht. unfold reply, after. rewrite put_inventory_id_cases, Hf.
  replace (negb (truthy (body_inventory_name req))
           && negb (truthy (body_description req))) with false
    by (apply orb_true_iff in Ht as [-> | ->]; simpl; by rewrite ?andb_false_r).
  simpl. split; [done|].
  rewrite FileFacts.get_inventory_id_run. unfold find. simpl.
  assert (∀ y, id (updated req y) = params_id req ↔ id y = params_id req)
    as Hkey by done.
  by rewrite (list_find_alter_same _ (updated req) _ _ _ Hkey Hf).
Qed.

Section photo_read_back.
Context (elsewhere : disk → jsstring → response item).

Local Abbreviation get_inventory_id_photo := (get_inventory_id_photo elsewhere).

(** An uploaded photo is read back: after PUT /inventory/:id/photo on a
    known id, GET /inventory/:id shows the blob's name and GET
    /inventory/:id/photo sends the uploaded bytes. *)
Lemma put_photo_then_get_photo req d idx it f :
  list_find (λ x, id x = params_id req) (DB_FILE d) = Some (idx, it) →
  file req = Some f →
  filename f ≠ [] →
  reply (put_inventory_id_photo req) d
    = Response 200 (json_message (lit "Photo updated"))
  ∧ reply (get_inventory_id req) (after (put_inventory_id_photo req) d)
    = Response 200 (json_item (set_photo (filename f) it))
  ∧ reply (get_inventory_id_photo req) (after (put_inventory_id_photo req) d)
    = Response 200 (send_stream (content f)).
Proof.
  intros Hf Hfile Hname. unfold reply, after.
  rewrite put_inventory_id_photo_cases, Hf, Hfile. simpl.
  assert (∀ y, id (set_photo (filename f) y) = params_id req
               ↔ id y = params_id req) as Hkey by done.
  pose proof (list_find_alter_same _ (set_photo (filename f)) _ _ _ Hkey Hf)
    as Hf'.
  split_and!; [done| |].
  - rewrite FileFacts.get_inventory_id_run. unfold find. simpl. by rewrite Hf'.
  - rewrite FileFacts.get_inventory_id_photo_run. unfold find. simpl.
    rewrite Hf'. simpl. rewrite bool_decide_eq_false_2 by done.
    by rewrite path_join_photos_filename, lookup_insert_eq.
Qed.

End photo_read_back.

Section photo_registered.
Context (elsewhere : disk → jsstring → response item).

Local Abbreviation get_inventory_id_photo := (get_inventory_id_photo elsewhere).

(** A photo uploaded with the registration is read back the same way. *)
Lemma register_with_photo_then_get_photo now req d it f q :
  created (reply (post_register now req) d) = Some it →
  Forall (λ x, id x ≠ number_toString now) (DB_FILE d) →
  file req = Some f →
  filename f ≠ [] →
  params_id q = id it →
  reply (get_inventory_id_photo q) (after (post_register now req) d)
  = Response 200 (send_stream (content f)).
Proof.
  intros Hc Hfresh Hfile Hname Hq.
  destruct (valid_name (body_inventory_name req)) eqn:Hv.
  - revert Hc. unfold reply, after.
    rewrite (FileFacts.post_register_valid _ _ _ Hv). simpl.
    unfold created. simpl. intros [= <-].
    rewrite FileFacts.get_inventory_id_photo_run. unfold find. simpl.
    rewrite Hq. simpl.
    rewrite list_find_app_r by (by apply list_find_None).
    simpl. rewrite decide_True by done. simpl. rewrite Hfile. simpl.
    rewrite bool_decide_eq_false_2 by done.
    by rewrite path_join_photos_filename, lookup_insert_eq.
  - destruct (FileFacts.post_register_invalid now req d Hv) as [Hs _].
    unfold created in Hc. case_bool_decide; [|done]. destruct Hs; congruence.
Qed.

End photo_registered.

(** *** Outcomes of POST /register *)

(** POST /register answers 201, 400 or 500: 201 exactly for a string that
    is not blank, 500 exactly for a truthy value that is not a string
    (the call of [trim] throws), and only a 201 changes the array. *)
Lemma post_register_outcomes now req d :
  let r := reply (post_register now req) d in
  (status r = 201 ↔ valid_name (body_inventory_name req) = true)
  ∧ (status r = 500 ↔
     truthy (body_inventory_name req) = true
     ∧ ∀ s, body_inventory_name req ≠ JString s)
  ∧ (status r = 201 ∨ status r = 400 ∨ status r = 500)
  ∧ (status r ≠ 201 → DB_FILE (after (post_register now req) d) = DB_FILE d).
Proof.
  simpl. destruct (valid_name (body_inventory_name req)) eqn:Hv.
  - unfold reply, after. rewrite (FileFacts.post_register_valid _ _ _ Hv). simpl.
    split_and!; [done| |by left|done].
    split; [done|]. intros [_ Hs].
    destruct (body_inventory_name req) as [| | |s]; try done. by destruct (Hs s).
  - destruct (FileFacts.post_register_invalid now req d Hv) as [Hs Hd].
    split_and!; [split; [destruct Hs; congruence|done] | |tauto|done].
    clear Hs Hd. unfold post_register. FileFacts.run.
    destruct (body_inventory_name req) as [| |[]|s]; simpl in *.
    + destruct (file req); simpl; by split; [|intros []].
    + destruct (file req); simpl; by split; [|intros []].
    + destruct (file req); simpl; (split; [intros _; by split|done]).
    + destruct (file req); simpl; by split; [|intros []].
    + apply negb_false_iff in Hv. rewrite Hv.
      destruct (bool_decide (s = [])); destruct (file req); simpl;
        (split; [done|]); intros [_ Hs]; by destruct (Hs s).
Qed.

(** *** What the writing handlers leave alone *)

(** PUT /inventory/:id never changes an id or a photo, and PUT
    /inventory/:id/photo never changes an id, a name or a description;
    neither adds, removes or reorders an item. *)
Lemma put_handlers_keep_other_fields req d :
  id <$> DB_FILE (after (put_inventory_id req) d) = id <$> DB_FILE d
  ∧ photo <$> DB_FILE (after (put_inventory_id req) d) = photo <$> DB_FILE d
  ∧ id <$> DB_FILE (after (put_inventory_id_photo req) d) = id <$> DB_FILE d
  ∧ inventory_name <$> DB_FILE (after (put_inventory_id_photo req) d)
    = inventory_name <$> DB_FILE d
  ∧ description <$> DB_FILE (after (put_inventory_id_photo req) d)
    = description <$> DB_FILE d.
Proof.
  unfold after. rewrite put_inventory_id_cases, put_inventory_id_photo_cases.
  destruct (list_find _ _) as [[idx it]|]; simpl.
  - split_and!.
    + destruct (negb _ && negb _); simpl; [done|]. by apply fmap_alter_kept.
    + destruct (negb _ && negb _); simpl; [done|]. by apply fmap_alter_kept.
    + destruct (file req); simpl; [|done]. by apply fmap_alter_kept.
    + destruct (file req); simpl; [|done]. by apply fmap_alter_kept.
    + destruct (file req); simpl; [|done]. by apply fmap_alter_kept.
  - by destruct (file req).
Qed.

(** DELETE /inventory/:id removes the first item with the id and nothing
    else: the items with other ids stay, in their order, the array gets
    one shorter on a 200 and stays as it is on a 404, and the photo
    directory is never touched (the blob of a deleted item stays). *)
Lemma delete_removes_first_match_only req d :
  let r := reply (delete_inventory_id req) d in
  let d' := after (delete_inventory_id req) d in
  filter (λ x, id x ≠ params_id req) (DB_FILE d')
    = filter (λ x, id x ≠ params_id req) (DB_FILE d)
  ∧ (status r = 200 → S (length (DB_FILE d')) = length (DB_FILE d))
  ∧ (status r = 404 → d' = d)
  ∧ (status r = 200 ∨ status r = 404)
  ∧ photos d' = photos d.
Proof.
  unfold reply, after. rewrite FileFacts.delete_inventory_id_run.
  destruct (list_find _ _) as [[idx it]|] eqn:Hf; simpl;
    [|split_and!; by auto].
  apply list_find_Some in Hf as (Hi & Hp & _).
  split_and!; try done; [| |by left].
  - rewrite delete_take_drop.
    rewrite <- (take_drop_middle (DB_FILE d) idx it Hi) at 3.
    rewrite !filter_app. f_equal.
    by rewrite filter_cons_False by (by intros H).
  - intros _. rewrite length_delete by eauto.
    apply lookup_lt_Some in Hi. lia.
Qed.

Section unknown_id.
Context (elsewhere : disk → jsstring → response item).

Local Abbreviation get_inventory_id_photo := (get_inventory_id_photo elsewhere).

(** An id no stored item has: GET, PUT, GET photo, PUT photo and DELETE on
    it all answer 404 and leave the array as it is. *)
Lemma unknown_id_404 req d :
  Forall (λ x, id x ≠ params_id req) (DB_FILE d) →
  (status (reply (get_inventory_id req) d) = 404
   ∧ status (reply (put_inventory_id req) d) = 404
   ∧ status (reply (get_inventory_id_photo req) d) = 404
   ∧ status (reply (put_inventory_id_photo req) d) = 404
   ∧ status (reply (delete_inventory_id req) d) = 404)
  ∧ (DB_FILE (after (put_inventory_id req) d) = DB_FILE d
     ∧ DB_FILE (after (put_inventory_id_photo req) d) = DB_FILE d
     ∧ DB_FILE (after (delete_inventory_id req) d) = DB_FILE d).
Proof.
  intros Hno. apply (list_find_None (λ x, id x = params_id req)) in Hno.
  unfold reply, after.
  rewrite FileFacts.get_inventory_id_run, put_inventory_id_cases,
    FileFacts.get_inventory_id_photo_run, put_inventory_id_photo_cases,
    FileFacts.delete_inventory_id_run.
  unfold find. rewrite Hno. simpl.
  split_and!; try done; by destruct (file req).
Qed.

End unknown_id.

(** *** The photo directory *)

Section photo_directory.
Context (elsewhere : disk → jsstring → response item).

Local Abbreviation get_inventory_id_photo := (get_inventory_id_photo elsewhere).

(** An upload is written whatever the handler then answers (a refused
    registration or an unknown id leave the blob behind), and no handler
    removes or rewrites a blob under another name. *)
Lemma uploads_always_written_blobs_never_removed now req d :
  (∀ f, file req = Some f →
        photos (after (post_register now req) d) !! filename f = Some (content f)
        ∧ photos (after (put_inventory_id_photo req) d) !! filename f
          = Some (content f))
  ∧ (∀ name, (∀ f, file req = Some f → filename f ≠ name) →
        photos (after (post_register now req) d) !! name = photos d !! name
        ∧ photos (after (put_inventory_id_photo req) d) !! name
          = photos d !! name)
  ∧ photos (after (put_inventory_id req) d) = photos d
  ∧ photos (after (delete_inventory_id req) d) = photos d
  ∧ after (post_search req) d = d
  ∧ after (get_inventory_id req) d = d
  ∧ after (get_inventory_id_photo req) d = d
  ∧ after get_inventory d = d.
Proof.
  assert (photos (after (post_register now req) d)
          = photos (after (upload_single (file req)) d)) as Hreg.
  { unfold post_register. FileFacts.run.
    destruct (body_inventory_name req) as [| |[]|s]; simpl;
      try by destruct (file req).
    destruct (bool_decide (s = [])); simpl; [by destruct (file req)|].
    destruct (bool_decide (trim s = [])); by destruct (file req). }
  assert (photos (after (put_inventory_id_photo req) d)
          = photos (after (upload_single (file req)) d)) as Hput.
  { unfold after at 1. rewrite put_inventory_id_photo_cases.
    destruct (list_find _ _) as [[idx it]|]; destruct (file req); done. }
  split_and!.
  - intros f Hf. rewrite Hreg, Hput. unfold after. simpl. rewrite Hf. simpl.
    by rewrite lookup_insert_eq.
  - intros name Hname. rewrite Hreg, Hput. unfold after. simpl.
    destruct (file req) as [f|]; simpl; [|done].
    rewrite lookup_insert_ne by (by apply Hname). done.
  - unfold after. rewrite put_inventory_id_cases.
    destruct (list_find _ _) as [[idx it]|]; [|done].
    by destruct (negb _ && negb _).
  - unfold after. rewrite FileFacts.delete_inventory_id_run.
    by destruct (list_find _ _) as [[idx it]|].
  - apply FileFacts.post_search_keeps_disk.
  - unfold after. by rewrite FileFacts.get_inventory_id_run.
  - unfold after. by rewrite FileFacts.get_inventory_id_photo_run.
  - done.
Qed.

End photo_directory.

(** *** Search and lookup *)

(** POST /search with a string id finds what GET /inventory/:id finds for
    that id: the same status, and the same item, with the photo path
    appended to its description when [includePhoto] is truthy. *)
Lemma search_finds_what_get_finds req d q :
  body_id req = JString (params_id q) →
  status (reply (post_search req) d) = status (reply (get_inventory_id q) d)
  ∧ ∀ it,
      reply (get_inventory_id q) d = Response 200 (json_item it) →
      reply (post_search req) d
      = Response 200
          (json_item (if truthy (body_includePhoto req)
                      then annotate (body_id req) it else it)).
Proof.
  intros Hid. unfold reply at 2 3. rewrite FileFacts.get_inventory_id_run.
  unfold find. simpl.
  assert (list_find (λ x, JString (id x) = body_id req) (DB_FILE d)
          = list_find (λ x, id x = params_id q) (DB_FILE d)) as Hsame.
  { apply list_find_ext. intros x. rewrite Hid.
    split; [by intros [= ->] | by intros ->]. }
  destruct (list_find (λ x, id x = params_id q) (DB_FILE d))
    as [[idx it]|] eqn:Hf; simpl.
  - rewrite (FileFacts.post_search_found req d idx it) by (by rewrite Hsame).
    split; [done|]. by intros it' [= <-].
  - rewrite (FileFacts.post_search_not_found req d) by (by rewrite Hsame).
    done.
Qed.

(** POST /search without an id, or with one that is not a string, answers
    404: the stored ids are strings and [===] does not convert. *)
Lemma search_without_string_id req d :
  (∀ p, body_id req ≠ JString p) →
  reply (post_search req) d = Response 404 (send_text (lit "Not found")).
Proof.
  intros Hid. apply FileFacts.post_search_not_found.
  apply list_find_None, Forall_forall. intros x _ Hx. by apply (Hid (id x)).
Qed.

(** *** Ids that stay distinct *)

(** One call served at or after [now] keeps the stored ids distinct texts
    of earlier milliseconds. *)
Lemma post_register_keeps_ids_before now t req d :
  FileClock.ids_before now d → now ≤ t → NoDup (id <$> DB_FILE d) →
  FileClock.ids_before (t + 1) (after (post_register t req) d)
  ∧ NoDup (id <$> DB_FILE (after (post_register t req) d)).
Proof.
  intros Hb Ht Hnd.
  assert (FileClock.ids_before (t + 1) d) as Hb'.
  { eapply Forall_impl; [exact Hb|]. intros x (u & Hu & Hx). exists u.
    split; [lia|done]. }
  destruct (valid_name (body_inventory_name req)) eqn:Hv.
  - unfold after, FileClock.ids_before.
    rewrite (FileFacts.post_register_valid _ _ _ Hv). simpl. split.
    + apply Forall_app. split; [exact Hb'|]. apply Forall_singleton.
      exists t. split; [lia|done].
    + rewrite fmap_app. apply NoDup_app. split_and!; [done| |].
      * intros k Hk [->|[]%not_elem_of_nil]%elem_of_cons.
        apply list_elem_of_fmap in Hk as (x & Hx & Hin).
        eapply Forall_forall in Hb as (u & Hu & Hid); [|exact Hin].
        simpl in Hx. rewrite Hid in Hx. apply number_toString_inj in Hx. lia.
      * apply NoDup_singleton.
  - destruct (FileFacts.post_register_invalid t req d Hv) as [_ Hd].
    unfold FileClock.ids_before. by rewrite Hd.
Qed.

(** Calls served in different milliseconds never repeat an id: when the
    stored ids are distinct texts of milliseconds before [now], a run of
    POST /register calls served one after the other from [now] on leaves
    distinct ids, so that no created item has the id of a stored one. *)
Lemma post_registers_later_ids_fresh now rs d :
  FileClock.ids_before now d →
  NoDup (id <$> DB_FILE d) →
  FileClock.increasing_from now rs →
  NoDup (id <$> DB_FILE (after (post_registers rs) d))
  ∧ NoDup (id <$> omap created (reply (post_registers rs) d))
  ∧ ∀ it, it ∈ omap created (reply (post_registers rs) d) →
          Forall (λ x, id x ≠ id it) (DB_FILE d).
Proof.
  intros Hb Hnd Hinc.
  assert (NoDup (id <$> DB_FILE (after (post_registers rs) d))) as Hall.
  { revert now d Hb Hnd Hinc. induction rs as [|[t req] rs IH];
      intros now d Hb Hnd Hinc; [done|].
    destruct Hinc as [Ht Hinc].
    destruct (post_register_keeps_ids_before now t req d Hb Ht Hnd)
      as [Hb' Hnd'].
    specialize (IH (t + 1) _ Hb' Hnd' Hinc). revert IH.
    unfold after. simpl. unfold mbind, handler_bind, mret, handler_ret.
    destruct (post_register t req d) as [r d1]. simpl.
    by destruct (post_registers rs d1). }
  split; [exact Hall|].
  rewrite FileFacts.post_registers_appends, fmap_app in Hall.
  apply NoDup_app in Hall as (_ & Hdis & Hnew). split; [exact Hnew|].
  intros it Hit. apply Forall_forall. intros x Hx Heq.
  apply (Hdis (id x)).
  - apply list_elem_of_fmap. by exists x.
  - rewrite Heq. apply list_elem_of_fmap. by exists it.
Qed.

(** Distinct ids stay distinct under PUT, PUT photo and DELETE, and under
    POST /register when no stored id is the text of the current
    millisecond. *)
Lemma ids_stay_distinct now req d :
  NoDup (id <$> DB_FILE d) →
  NoDup (id <$> DB_FILE (after (put_inventory_id req) d))
  ∧ NoDup (id <$> DB_FILE (after (put_inventory_id_photo req) d))
  ∧ NoDup (id <$> DB_FILE (after (delete_inventory_id req) d))
  ∧ (Forall (λ x, id x ≠ number_toString now) (DB_FILE d) →
     NoDup (id <$> DB_FILE (after (post_register now req) d))).
Proof.
  intros Hnd. split_and!.
  - unfold after. rewrite put_inventory_id_cases.
    destruct (list_find _ _) as [[idx it]|]; [|done].
    destruct (negb _ && negb _); simpl; [done|].
    by rewrite fmap_alter_kept.
  - unfold after. rewrite put_inventory_id_photo_cases.
    destruct (list_find _ _) as [[idx it]|]; destruct (file req); simpl;
      try done.
    by rewrite fmap_alter_kept.
  - unfold after. rewrite FileFacts.delete_inventory_id_run.
    destruct (list_find _ _) as [[idx it]|]; [|done]. simpl.
    rewrite list_fmap_delete. eapply sublist_NoDup; [exact Hnd|].
    apply sublist_delete.
  - intros Hfresh. destruct (valid_name (body_inventory_name req)) eqn:Hv.
    + unfold after. rewrite (FileFacts.post_register_valid _ _ _ Hv). simpl.
      rewrite fmap_app. apply NoDup_app. split_and!; [done| |].
      * intros k Hk [->|[]%not_elem_of_nil]%elem_of_cons.
        apply list_elem_of_fmap in Hk as (x & Hx & Hin).
        eapply Forall_forall in Hfresh; [|exact Hin]. by apply Hfresh.
      * apply NoDup_singleton.
    + by destruct (FileFacts.post_register_invalid now req d Hv) as [_ ->].
Qed.

End FileLaws.

(** ** The MySQL backend: how the handlers compose *)

Module MySQLLaws.
Import MySQLBackend MySQLRuns MySQLKeys.

(** Filtering commutes with a change of the elements that keeps the
    filtered property. *)
Lemma filter_fmap_kept {A} (P : A → Prop) `{!∀ x, Decision (P x)}
    (f : A → A) (l : list A) :
  (∀ x, P (f x) ↔ P x) → filter P (f <$> l) = f <$> filter P l.
Proof.
  intros Hf. induction l as [|x l IH]; [done|].
  rewrite fmap_cons, !filter_cons.
  destruct (decide (P x)) as [Hx|Hx].
  - rewrite decide_True by (by apply Hf). by rewrite fmap_cons, IH.
  - rewrite decide_False by (by rewrite Hf). done.
Qed.

Lemma filter_none {A} (P : A → Prop) `{!∀ x, Decision (P x)} (l : list A) :
  Forall (λ x, ¬ P x) l → filter P l = [].
Proof.
  induction 1 as [|x l Hx _ IH]; [done|]. by rewrite filter_cons_False.
Qed.

Lemma fmap_kept {A B} (g : A → B) (f : A → A) (l : list A) :
  (∀ x, g (f x) = g x) → g <$> (f <$> l) = g <$> l.
Proof.
  intros Hg. rewrite <- list_fmap_compose. apply list_fmap_ext.
  intros i x _. apply Hg.
Qed.

(** *** POST /register *)

(** POST /register answers 201 exactly when the name is truthy (a blank
    string or a value that is not a string included) and 400 otherwise; a
    201 takes one key from the counter, a 400 none. *)
Lemma mysql_post_register_outcomes req d :
  let r := reply (post_register req) d in
  let d' := after (post_register req) d in
  (status r = 201 ↔ truthy (body_inventory_name req) = true)
  ∧ (status r = 400 ↔ truthy (body_inventory_name req) = false)
  ∧ (status r = 201 →
     AUTO_INCREMENT d' = AUTO_INCREMENT d + 1
     ∧ length (inventory d') = S (length (inventory d)))
  ∧ (status r = 400 →
     AUTO_INCREMENT d' = AUTO_INCREMENT d ∧ inventory d' = inventory d).
Proof.
  simpl. destruct (truthy (body_inventory_name req)) eqn:Ht.
  - unfold reply, after. rewrite (MySQLFacts.mysql_post_register_truthy _ _ Ht).
    simpl. split_and!; try done.
    intros _. split; [done|]. rewrite length_app. simpl. lia.
  - destruct (MySQLFacts.mysql_post_register_falsy req d Ht) as (Hs & Hi & Ha).
    rewrite Hs. split_and!; done.
Qed.

(** Comparing by the decimal text selects each key by its own text. *)
Lemma decimal_token_selects_own_key : selects_own_key decimal_token.
Proof.
  intros k k'. unfold decimal_token. rewrite bool_decide_eq_true.
  split; [apply number_toString_inj | by intros ->].
Qed.

Section by_id.
Context (id_matches : Z → jsstring → bool).

Local Abbreviation WHERE_id := (WHERE_id id_matches).
Local Abbreviation first_row := (first_row id_matches).
Local Abbreviation get_inventory_id := (get_inventory_id id_matches).
Local Abbreviation put_inventory_id := (put_inventory_id id_matches).
Local Abbreviation put_inventory_id_photo := (put_inventory_id_photo id_matches).
Local Abbreviation delete_inventory_id := (delete_inventory_id id_matches).

(** PUT /inventory/:id/photo, case by case: the file is looked at before
    the id. *)
Lemma mysql_put_inventory_id_photo_cases req d :
  put_inventory_id_photo req d =
    match file req with
    | None => (Response 400 (json_error (lit "Missing file")), d)
    | Some f =>
      match first_row (params_id req) d with
      | None =>
        (Response 404 (json_error (lit "Not found")),
         Database (inventory d) (AUTO_INCREMENT d)
                  (<[filename f := content f]> (PHOTOS_DIR d)))
      | Some _ =>
        (Response 200 (json_message (lit "Photo updated")),
         Database
           ((λ r, if decide (WHERE_id (params_id req) r)
                  then Row (id r) (inventory_name r) (description r)
                           (Some (filename f))
                  else r) <$> inventory d)
           (AUTO_INCREMENT d)
           (<[filename f := content f]> (PHOTOS_DIR d)))
      end
    end.
Proof.
  unfold MySQLBackend.put_inventory_id_photo, MySQLRuns.first_row.
  MySQLFacts.run.
  destruct (file req) as [f|]; simpl; [|done].
  by destruct (filter _ _).
Qed.

(** *** Round trips *)

(** The registered row is read back under the decimal text of its key:
    GET /inventory/:id answers the stored row, which is the object sent
    back with its description defaulted. *)
Lemma mysql_register_then_get req d r q :
  selects_own_key id_matches →
  keys_below d →
  created (reply (post_register req) d) = Some r →
  params_id q = number_toString (id r) →
  reply (get_inventory_id q) (after (post_register req) d)
  = Response 200 (json_item (stored r)).
Proof.
  intros Hsel Hk Hc Hq. destruct (truthy (body_inventory_name req)) eqn:Ht.
  - revert Hc. unfold reply, after.
    rewrite (MySQLFacts.mysql_post_register_truthy _ _ Ht). simpl.
    unfold created. simpl. intros [= <-]. simpl in Hq.
    rewrite MySQLFacts.mysql_get_inventory_id_run.
    unfold MySQLRuns.first_row. simpl. rewrite filter_app.
    assert (filter (WHERE_id (params_id q)) (inventory d) = []) as ->.
    { apply filter_none. eapply Forall_impl; [exact Hk|].
      intros x Hx Hw. unfold MySQLBackend.WHERE_id in Hw.
      rewrite Hq in Hw. apply Hsel in Hw. simpl in Hx. lia. }
    rewrite filter_cons_True; [done|].
    unfold MySQLBackend.WHERE_id. simpl. rewrite Hq. by apply Hsel.
  - destruct (MySQLFacts.mysql_post_register_falsy req d Ht) as (Hs & _).
    unfold created in Hc. case_bool_decide; [congruence|done].
Qed.

(** A PUT /inventory/:id on a known id is read back: GET /inventory/:id
    answers the first selected row with each field replaced by the
    truthy value sent for it. *)
Lemma mysql_put_then_get req d r0 :
  first_row (params_id req) d = Some r0 →
  reply (put_inventory_id req) d = Response 200 (json_message (lit "Updated"))
  ∧ reply (get_inventory_id req) (after (put_inventory_id req) d)
    = Response 200
        (json_item (Row (id r0)
                        (body_inventory_name req ||| inventory_name r0)
                        (body_description req ||| description r0)
                        (photo r0))).
Proof.
  intros Hf. unfold reply, after.
  rewrite MySQLFacts.mysql_put_inventory_id_run, Hf. simpl. split; [done|].
  rewrite MySQLFacts.mysql_get_inventory_id_run.
  unfold MySQLRuns.first_row in *. simpl.
  rewrite filter_fmap_kept.
  - destruct (filter _ (inventory d)) as [|r rows] eqn:E; simplify_eq/=.
    assert (WHERE_id (params_id req) r0) as Hw.
    { assert (r0 ∈ filter (WHERE_id (params_id req)) (inventory d)) as Hin
        by (rewrite E; apply list_elem_of_here).
      by apply list_elem_of_filter in Hin as [? _]. }
    by rewrite decide_True.
  - intros x. by destruct (decide _).
Qed.

Section photo_read_back.
Context (elsewhere : database → jsstring → response row).
Context (sendFile : request → list byte → response row).

Local Abbreviation get_inventory_id_photo :=
  (get_inventory_id_photo id_matches elsewhere sendFile).

(** An uploaded photo is read back: after PUT /inventory/:id/photo on a
    known id, GET /inventory/:id/photo hands the uploaded bytes to
    res.sendFile, which for a plain GET sends them whole with status
    200. *)
Lemma mysql_put_photo_then_get_photo req d r0 f :
  first_row (params_id req) d = Some r0 →
  file req = Some f →
  filename f ≠ [] →
  reply (put_inventory_id_photo req) d
    = Response 200 (json_message (lit "Photo updated"))
  ∧ reply (get_inventory_id_photo req) (after (put_inventory_id_photo req) d)
    = sendFile req (content f)
  ∧ reply (MySQLBackend.get_inventory_id_photo id_matches elsewhere whole_file
             req)
          (after (put_inventory_id_photo req) d)
    = Response 200 (send_stream (content f)).
Proof.
  intros Hf Hfile Hname. unfold reply, after.
  rewrite mysql_put_inventory_id_photo_cases, Hfile, Hf. simpl.
  split; [done|].
  rewrite !MySQLFacts.mysql_get_inventory_id_photo_run.
  unfold MySQLRuns.first_row in *. simpl.
  rewrite filter_fmap_kept by (intros x; by destruct (decide _)).
  destruct (filter _ (inventory d)) as [|r rows] eqn:E; simplify_eq/=.
  assert (WHERE_id (params_id req) r0) as Hw.
  { assert (r0 ∈ filter (WHERE_id (params_id req)) (inventory d)) as Hin
      by (rewrite E; apply list_elem_of_here).
    by apply list_elem_of_filter in Hin as [? _]. }
  rewrite decide_True by done. simpl.
  rewrite bool_decide_eq_false_2 by done.
  by rewrite path_join_photos_filename, lookup_insert_eq.
Qed.

End photo_read_back.

(** *** Refusals *)

Section unknown_id.
Context (elsewhere : database → jsstring → response row).
Context (sendFile : request → list byte → response row).

Local Abbreviation get_inventory_id_photo :=
  (get_inventory_id_photo id_matches elsewhere sendFile).

(** An id that selects no row: GET, PUT, GET photo and DELETE answer 404
    and change nothing.  PUT photo looks at the file first: without a file
    it answers 400, with one it answers 404 and leaves the table as it
    is, with the uploaded blob on disk. *)
Lemma mysql_unknown_id_refused req d :
  Forall (λ r, ¬ WHERE_id (params_id req) r) (inventory d) →
  (status (reply (get_inventory_id req) d) = 404
   ∧ status (reply (put_inventory_id req) d) = 404
   ∧ status (reply (get_inventory_id_photo req) d) = 404
   ∧ status (reply (delete_inventory_id req) d) = 404)
  ∧ (after (put_inventory_id req) d = d ∧ after (delete_inventory_id req) d = d)
  ∧ (file req = None →
     put_inventory_id_photo req d
     = (Response 400 (json_error (lit "Missing file")), d))
  ∧ (∀ f, file req = Some f →
     status (reply (put_inventory_id_photo req) d) = 404
     ∧ inventory (after (put_inventory_id_photo req) d) = inventory d
     ∧ PHOTOS_DIR (after (put_inventory_id_photo req) d) !! filename f
       = Some (content f)).
Proof.
  intros Hno. assert (first_row (params_id req) d = None) as Hf.
  { unfold MySQLRuns.first_row. by rewrite filter_none. }
  unfold reply, after.
  rewrite MySQLFacts.mysql_get_inventory_id_run,
    MySQLFacts.mysql_put_inventory_id_run,
    MySQLFacts.mysql_get_inventory_id_photo_run,
    MySQLFacts.mysql_delete_inventory_id_run,
    mysql_put_inventory_id_photo_cases, Hf.
  split_and!; try done.
  - by intros ->.
  - intros f ->. simpl. by rewrite lookup_insert_eq.
Qed.

End unknown_id.

(** *** Keys *)

(** Keys that do not repeat and lie below the counter stay so under every
    handler that writes, POST /register included. *)
Lemma mysql_keys_stay_unique req d :
  keys_unique d →
  keys_unique (after (post_register req) d)
  ∧ keys_unique (after (put_inventory_id req) d)
  ∧ keys_unique (after (put_inventory_id_photo req) d)
  ∧ keys_unique (after (delete_inventory_id req) d).
Proof.
  intros [Hnd Hk]. unfold keys_below in Hk.
  split; [|split; [|split]]; unfold keys_unique, keys_below.
  - destruct (truthy (body_inventory_name req)) eqn:Ht.
    + unfold after. rewrite (MySQLFacts.mysql_post_register_truthy _ _ Ht).
      simpl. rewrite fmap_app. rewrite NoDup_app. split_and!; try done.
      * intros k Hin [->|[]%not_elem_of_nil]%elem_of_cons.
        apply list_elem_of_fmap in Hin as (x & Hx & Hin). simpl in Hx.
        eapply Forall_forall in Hk; [|exact Hin]. lia.
      * apply NoDup_singleton.
      * apply Forall_app. split.
        -- eapply Forall_impl; [exact Hk|]. simpl. lia.
        -- apply Forall_singleton. simpl. lia.
    + by destruct (MySQLFacts.mysql_post_register_falsy req d Ht)
        as (_ & -> & ->).
  - unfold after. rewrite MySQLFacts.mysql_put_inventory_id_run.
    destruct (first_row _ _); [|done]. simpl. split.
    + rewrite fmap_kept; [done|]. intros x. by destruct (decide _).
    + apply Forall_fmap. eapply Forall_impl; [exact Hk|]. intros x Hx. simpl.
      by destruct (decide _).
  - unfold after. rewrite mysql_put_inventory_id_photo_cases.
    destruct (file req) as [f|]; [|done].
    destruct (first_row _ _); [|done]. simpl. split.
    + rewrite fmap_kept; [done|]. intros x. by destruct (decide _).
    + apply Forall_fmap. eapply Forall_impl; [exact Hk|]. intros x Hx. simpl.
      by destruct (decide _).
  - unfold after. rewrite MySQLFacts.mysql_delete_inventory_id_run.
    destruct (first_row _ _); [|done]. simpl. split.
    + eapply sublist_NoDup; [exact Hnd|]. apply fmap_sublist, sublist_filter.
    + apply Forall_forall. intros x [_ Hin]%list_elem_of_filter.
      by eapply Forall_forall in Hk.
Qed.

(** *** What the writing handlers leave alone *)

(** PUT /inventory/:id never changes a key or a photo, PUT
    /inventory/:id/photo never changes a key, a name or a description,
    and neither touches a row the id does not select. *)
Lemma mysql_put_handlers_keep_other_fields req d :
  id <$> inventory (after (put_inventory_id req) d) = id <$> inventory d
  ∧ photo <$> inventory (after (put_inventory_id req) d) = photo <$> inventory d
  ∧ id <$> inventory (after (put_inventory_id_photo req) d) = id <$> inventory d
  ∧ inventory_name <$> inventory (after (put_inventory_id_photo req) d)
    = inventory_name <$> inventory d
  ∧ description <$> inventory (after (put_inventory_id_photo req) d)
    = description <$> inventory d
  ∧ filter (λ r, ¬ WHERE_id (params_id req) r)
           (inventory (after (put_inventory_id req) d))
    = filter (λ r, ¬ WHERE_id (params_id req) r) (inventory d)
  ∧ filter (λ r, ¬ WHERE_id (params_id req) r)
           (inventory (after (put_inventory_id_photo req) d))
    = filter (λ r, ¬ WHERE_id (params_id req) r) (inventory d).
Proof.
  assert (∀ (f : row → row) (l : list row),
            (∀ x, id (f x) = id x) →
            (∀ x, ¬ WHERE_id (params_id req) x → f x = x) →
            filter (λ r, ¬ WHERE_id (params_id req) r) (f <$> l)
            = filter (λ r, ¬ WHERE_id (params_id req) r) l) as Hrest.
  { intros f l Hid Hfix. rewrite filter_fmap_kept.
    - rewrite <- (list_fmap_id (filter _ l)) at 2. apply list_fmap_ext.
      intros i x Hx. apply Hfix.
      apply list_elem_of_lookup_2, list_elem_of_filter in Hx. tauto.
    - intros x. unfold MySQLBackend.WHERE_id. by rewrite Hid. }
  unfold after.
  rewrite MySQLFacts.mysql_put_inventory_id_run,
    mysql_put_inventory_id_photo_cases.
  destruct (first_row _ _); destruct (file req) as [f|]; simpl;
    split_and!; try done;
    try (apply fmap_kept; intros x; by destruct (decide _));
    apply Hrest; intros x; by destruct (decide _).
Qed.

End by_id.

End MySQLLaws.

(** ** The laws at concrete requests *)

Section MoreWitnesses.
Import FileBackend.

(** "Saw" registered one millisecond after "Drill" is read back. *)
Lemma register_then_get_witness :
  reply (get_inventory_id (on_id (lit "1700000000001") undefined undefined))
        (after (post_register (t0 + 1) (fields (JString (lit "Saw")) undefined))
               disk_with_drill)
  = Response 200
      (json_item (Item (lit "1700000000001") (JString (lit "Saw")) (JString []) None)).
Proof.
  apply (FileLaws.register_then_get
           (t0 + 1) (fields (JString (lit "Saw")) undefined) disk_with_drill
           (Item (lit "1700000000001") (JString (lit "Saw")) (JString []) None)
           (on_id (lit "1700000000001") undefined undefined)).
  - vm_compute. reflexivity.
  - apply Forall_singleton. vm_compute. discriminate.
  - reflexivity.
Defined.

(** "Saw" registered in the millisecond of "Drill": the id still reads
    "Drill". *)
Lemma register_repeated_id_shadowed_witness :
  reply (get_inventory_id (on_id (lit "1700000000000") undefined undefined))
        (after (post_register t0 (fields (JString (lit "Saw")) undefined))
               disk_with_drill)
  = Response 200 (json_item stored_drill).
Proof.
  apply (FileLaws.register_repeated_id_shadowed
           t0 (fields (JString (lit "Saw")) undefined) disk_with_drill
           (Item (lit "1700000000000") (JString (lit "Saw")) (JString []) None)
           stored_drill
           (on_id (lit "1700000000000") undefined undefined));
    vm_compute; reflexivity.
Defined.

(** "Drill" renamed "Hammer" is read back renamed. *)
Lemma put_then_get_witness :
  let req := on_id (lit "1700000000000") (JString (lit "Hammer")) undefined in
  reply (put_inventory_id req) disk_with_drill
    = Response 200 (json_item (FileRuns.updated req stored_drill))
  ∧ reply (get_inventory_id req) (after (put_inventory_id req) disk_with_drill)
    = Response 200 (json_item (FileRuns.updated req stored_drill)).
Proof.
  apply (FileLaws.put_then_get
           (on_id (lit "1700000000000") (JString (lit "Hammer")) undefined)
           disk_with_drill 0%nat stored_drill);
    vm_compute; reflexivity.
Defined.

(** The photo uploaded for "Drill" is served. *)
Lemma put_photo_then_get_photo_witness :
  let req := upload_for (lit "1700000000000") in
  reply (put_inventory_id_photo req) disk_with_drill
    = Response 200 (json_message (lit "Photo updated"))
  ∧ reply (get_inventory_id req) (after (put_inventory_id_photo req) disk_with_drill)
    = Response 200 (json_item (set_photo drill_jpeg_name stored_drill))
  ∧ reply (get_inventory_id_photo nothing_elsewhere req)
          (after (put_inventory_id_photo req) disk_with_drill)
    = Response 200 (send_stream [Byte.xff; Byte.xd8; Byte.xff; Byte.xe0]).
Proof.
  apply (FileLaws.put_photo_then_get_photo
           nothing_elsewhere
           (upload_for (lit "1700000000000")) disk_with_drill 0%nat stored_drill
           drill_jpeg).
  - vm_compute. reflexivity.
  - reflexivity.
  - vm_compute. discriminate.
Defined.

(** The photo uploaded with the registration of "Drill" is served. *)
Lemma register_with_photo_then_get_photo_witness :
  reply (get_inventory_id_photo nothing_elsewhere
            (on_id (lit "1700000000000") undefined undefined))
        (after (post_register t0
                  (Request [] (JString (lit "Drill")) undefined undefined undefined
                           (Some drill_jpeg)))
               empty_disk)
  = Response 200 (send_stream [Byte.xff; Byte.xd8; Byte.xff; Byte.xe0]).
Proof.
  apply (FileLaws.register_with_photo_then_get_photo
           nothing_elsewhere t0
           (Request [] (JString (lit "Drill")) undefined undefined undefined
                    (Some drill_jpeg))
           empty_disk
           (Item (lit "1700000000000") (JString (lit "Drill")) (JString [])
                 (Some drill_jpeg_name))
           drill_jpeg
           (on_id (lit "1700000000000") undefined undefined)).
  - vm_compute. reflexivity.
  - apply Forall_nil_2.
  - reflexivity.
  - vm_compute. discriminate.
  - vm_compute. reflexivity.
Defined.

(** The id "42" is unknown to the array holding "Drill". *)
Lemma unknown_id_404_witness :
  let req := on_id (lit "42") (JString (lit "Hammer")) undefined in
  (status (reply (get_inventory_id req) disk_with_drill) = 404
   ∧ status (reply (put_inventory_id req) disk_with_drill) = 404
   ∧ status (reply (get_inventory_id_photo nothing_elsewhere req)
                   disk_with_drill) = 404
   ∧ status (reply (put_inventory_id_photo req) disk_with_drill) = 404
   ∧ status (reply (delete_inventory_id req) disk_with_drill) = 404)
  ∧ (DB_FILE (after (put_inventory_id req) disk_with_drill) = DB_FILE disk_with_drill
     ∧ DB_FILE (after (put_inventory_id_photo req) disk_with_drill)
       = DB_FILE disk_with_drill
     ∧ DB_FILE (after (delete_inventory_id req) disk_with_drill)
       = DB_FILE disk_with_drill).
Proof.
  apply (FileLaws.unknown_id_404
           nothing_elsewhere
           (on_id (lit "42") (JString (lit "Hammer")) undefined) disk_with_drill).
  apply Forall_singleton. vm_compute. discriminate.
Defined.

(** The search for the id of "Drill" finds what GET finds. *)
Lemma search_finds_what_get_finds_witness :
  let req := search_form (JString (lit "1700000000000")) (JString (lit "on")) in
  let q := on_id (lit "1700000000000") undefined undefined in
  status (reply (post_search req) disk_with_drill)
    = status (reply (get_inventory_id q) disk_with_drill)
  ∧ ∀ it,
      reply (get_inventory_id q) disk_with_drill = Response 200 (json_item it) →
      reply (post_search req) disk_with_drill
      = Response 200
          (json_item (if truthy (body_includePhoto req)
                      then annotate (body_id req) it else it)).
Proof.
  apply (FileLaws.search_finds_what_get_finds
           (search_form (JString (lit "1700000000000")) (JString (lit "on")))
           disk_with_drill
           (on_id (lit "1700000000000") undefined undefined)).
  reflexivity.
Defined.

(** A search form without an id. *)
Lemma search_without_string_id_witness :
  reply (post_search (search_form undefined (JString (lit "on")))) disk_with_drill
  = Response 404 (send_text (lit "Not found")).
Proof.
  apply (FileLaws.search_without_string_id
           (search_form undefined (JString (lit "on"))) disk_with_drill).
  intros p. simpl. discriminate.
Defined.

(** Calls served in the milliseconds [t0 + 1] and [t0 + 2] on the array
    holding "Drill" of [t0]: three distinct ids, and both created items
    carry ids "Drill" has not. *)
Lemma post_registers_later_ids_fresh_witness :
  let rs := [(t0 + 1, fields (JString (lit "Saw")) undefined);
             (t0 + 2, fields (JString (lit "Hammer")) undefined)] in
  id <$> DB_FILE (after (FileRuns.post_registers rs) disk_with_drill)
    = [lit "1700000000000"; lit "1700000000001"; lit "1700000000002"]
  ∧ NoDup (id <$> DB_FILE (after (FileRuns.post_registers rs) disk_with_drill))
  ∧ NoDup (id <$> omap created (reply (FileRuns.post_registers rs) disk_with_drill))
  ∧ ∀ it, it ∈ omap created (reply (FileRuns.post_registers rs) disk_with_drill) →
          Forall (λ x, id x ≠ id it) (DB_FILE disk_with_drill).
Proof.
  split; [vm_compute; reflexivity|].
  apply (FileLaws.post_registers_later_ids_fresh
           (t0 + 1)
           [(t0 + 1, fields (JString (lit "Saw")) undefined);
            (t0 + 2, fields (JString (lit "Hammer")) undefined)]
           disk_with_drill).
  - apply Forall_singleton. exists t0. split; [lia|reflexivity].
  - vm_compute. apply NoDup_singleton.
  - simpl. lia.
Defined.

(** The array holding "Drill" and "Saw" has two distinct ids, and keeps
    distinct ids when "Drill" is renamed, given a photo or deleted, and
    when one more item is registered a millisecond after "Saw". *)
Lemma ids_stay_distinct_witness :
  let d := disk_with_drill_and_saw in
  let req := rename_and_upload in
  id <$> DB_FILE d = [lit "1700000000000"; lit "1700000000001"]
  ∧ status (reply (put_inventory_id req) d) = 200
  ∧ status (reply (put_inventory_id_photo req) d) = 200
  ∧ status (reply (delete_inventory_id req) d) = 200
  ∧ status (reply (post_register (t0 + 2) req) d) = 201
  ∧ NoDup (id <$> DB_FILE (after (put_inventory_id req) d))
  ∧ NoDup (id <$> DB_FILE (after (put_inventory_id_photo req) d))
  ∧ NoDup (id <$> DB_FILE (after (delete_inventory_id req) d))
  ∧ NoDup (id <$> DB_FILE (after (post_register (t0 + 2) req) d)).
Proof.
  assert (NoDup (id <$> DB_FILE disk_with_drill_and_saw)) as Hnd.
  { apply (bool_decide_unpack _). vm_compute. exact I. }
  assert (Forall (λ x, id x ≠ number_toString (t0 + 2))
                 (DB_FILE disk_with_drill_and_saw)) as Hfresh.
  { apply (bool_decide_unpack _). vm_compute. exact I. }
  destruct (FileLaws.ids_stay_distinct
              (t0 + 2) rename_and_upload disk_with_drill_and_saw Hnd)
    as (Hput & Hphoto & Hdel & Hpost).
  split_and!; [vm_compute; reflexivity .. | exact Hput | exact Hphoto
              | exact Hdel | exact (Hpost Hfresh)].
Defined.

(** The table: "Saw" is registered under the key 2 and read back under
    the text "2". *)
Lemma mysql_register_then_get_witness :
  reply (MySQLBackend.get_inventory_id MySQLBackend.decimal_token
           (on_id (lit "2") undefined undefined))
        (after (MySQLBackend.post_register (fields (JString (lit "Saw")) undefined))
               table_with_drill)
  = Response 200
      (json_item (MySQLBackend.Row 2 (JString (lit "Saw")) (JString []) None)).
Proof.
  apply (MySQLLaws.mysql_register_then_get
           MySQLBackend.decimal_token
           (fields (JString (lit "Saw")) undefined) table_with_drill
           (MySQLBackend.Row 2 (JString (lit "Saw")) undefined None)
           (on_id (lit "2") undefined undefined)
           MySQLLaws.decimal_token_selects_own_key).
  - apply Forall_singleton. vm_compute. reflexivity.
  - vm_compute. reflexivity.
  - vm_compute. reflexivity.
Defined.

(** Row 1 renamed "Hammer" with an empty description sent: the name is
    read back new, the description old. *)
Lemma mysql_put_then_get_witness :
  let req := on_id (lit "1") (JString (lit "Hammer")) (JString []) in
  reply (MySQLBackend.put_inventory_id MySQLBackend.decimal_token req) table_with_drill
    = Response 200 (json_message (lit "Updated"))
  ∧ reply (MySQLBackend.get_inventory_id MySQLBackend.decimal_token req)
          (after (MySQLBackend.put_inventory_id MySQLBackend.decimal_token req)
                 table_with_drill)
    = Response 200
        (json_item (MySQLBackend.Row 1 (JString (lit "Hammer"))
                                     (JString (lit "cordless")) None)).
Proof.
  apply (MySQLLaws.mysql_put_then_get
           MySQLBackend.decimal_token
           (on_id (lit "1") (JString (lit "Hammer")) (JString []))
           table_with_drill stored_drill_row).
  vm_compute. reflexivity.
Defined.

(** The photo uploaded for row 1 is served. *)
Lemma mysql_put_photo_then_get_photo_witness :
  let req := upload_for (lit "1") in
  reply (MySQLBackend.put_inventory_id_photo MySQLBackend.decimal_token req)
        table_with_drill
    = Response 200 (json_message (lit "Photo updated"))
  ∧ reply (MySQLBackend.get_inventory_id_photo MySQLBackend.decimal_token
             nothing_elsewhere whole_file req)
          (after (MySQLBackend.put_inventory_id_photo MySQLBackend.decimal_token req)
                 table_with_drill)
    = whole_file req [Byte.xff; Byte.xd8; Byte.xff; Byte.xe0]
  ∧ reply (MySQLBackend.get_inventory_id_photo MySQLBackend.decimal_token
             nothing_elsewhere whole_file req)
          (after (MySQLBackend.put_inventory_id_photo MySQLBackend.decimal_token req)
                 table_with_drill)
    = Response 200 (send_stream [Byte.xff; Byte.xd8; Byte.xff; Byte.xe0]).
Proof.
  apply (MySQLLaws.mysql_put_photo_then_get_photo
           MySQLBackend.decimal_token nothing_elsewhere whole_file
           (upload_for (lit "1")) table_with_drill
           stored_drill_row drill_jpeg).
  - vm_compute. reflexivity.
  - reflexivity.
  - vm_compute. discriminate.
Defined.

(** The text "42" selects no row of the table holding row 1. *)
Lemma mysql_unknown_id_refused_witness :
  let m := MySQLBackend.decimal_token in
  let req := upload_for (lit "42") in
  (status (reply (MySQLBackend.get_inventory_id m req) table_with_drill) = 404
   ∧ status (reply (MySQLBackend.put_inventory_id m req) table_with_drill) = 404
   ∧ status (reply (MySQLBackend.get_inventory_id_photo m nothing_elsewhere
                      whole_file req)
                   table_with_drill) = 404
   ∧ status (reply (MySQLBackend.delete_inventory_id m req) table_with_drill) = 404)
  ∧ (after (MySQLBackend.put_inventory_id m req) table_with_drill = table_with_drill
     ∧ after (MySQLBackend.delete_inventory_id m req) table_with_drill
       = table_with_drill)
  ∧ (file req = None →
     MySQLBackend.put_inventory_id_photo m req table_with_drill
     = (Response 400 (json_error (lit "Missing file")), table_with_drill))
  ∧ (∀ f, file req = Some f →
     status (reply (MySQLBackend.put_inventory_id_photo m req) table_with_drill) = 404
     ∧ MySQLBackend.inventory
         (after (MySQLBackend.put_inventory_id_photo m req) table_with_drill)
       = MySQLBackend.inventory table_with_drill
     ∧ MySQLBackend.PHOTOS_DIR
         (after (MySQLBackend.put_inventory_id_photo m req) table_with_drill)
         !! filename f
       = Some (content f)).
Proof.
  apply (MySQLLaws.mysql_unknown_id_refused
           MySQLBackend.decimal_token nothing_elsewhere whole_file (upload_for (lit "42")) table_with_drill).
  apply Forall_singleton. vm_compute. discriminate.
Defined.

(** The table holding row 1 has distinct keys below the counter, and
    keeps them. *)
Lemma mysql_keys_stay_unique_witness :
  let m := MySQLBackend.decimal_token in
  let req := on_id (lit "1") (JString (lit "Saw")) undefined in
  MySQLKeys.keys_unique (after (MySQLBackend.post_register req) table_with_drill)
  ∧ MySQLKeys.keys_unique (after (MySQLBackend.put_inventory_id m req) table_with_drill)
  ∧ MySQLKeys.keys_unique
      (after (MySQLBackend.put_inventory_id_photo m req) table_with_drill)
  ∧ MySQLKeys.keys_unique
      (after (MySQLBackend.delete_inventory_id m req) table_with_drill).
Proof.
  apply (MySQLLaws.mysql_keys_stay_unique
           MySQLBackend.decimal_token
           (on_id (lit "1") (JString (lit "Saw")) undefined) table_with_drill).
  split.
  - vm_compute. apply NoDup_singleton.
  - apply Forall_singleton. vm_compute. reflexivity.
Defined.

End MoreWitnesses.
